(** * radar-visualisation: the telemetry pipeline of [main.py]

  A shallow embedding of [WebSocketWorker], [RadarWidget] and
  [RadarWindow] from [src/main.py], and the properties of the
  connection loop, of message handling and of the range/bearing to
  display-coordinate transform.

  Python [float] is IEEE binary64 and is embedded as Rocq's primitive
  [float]; Python [int] is unbounded and is embedded as [Z]. *)

From Stdlib Require Import ZArith QArith Qabs List String Bool Floats Lia.
Import ListNotations.
Open Scope Z_scope.

Set Implicit Arguments.
Set Warnings "-register-all".

(* ================================================================== *)
(** * The Python runtime the program relies on *)
(* ================================================================== *)

Module Py.

(** What [json.loads] can return: [None], [bool], [int], [float],
    [str], [list] and [dict] with string keys (insertion ordered,
    unique keys, so a lookup takes the first binding). *)
Inductive value : Type :=
| PyNone
| PyBool (b : bool)
| PyInt (n : Z)
| PyFloat (f : float)
| PyStr (s : string)
| PyList (items : list value)
| PyDict (items : list (string * value)).

(** The exceptions that occur in the program, all subclasses of
    [Exception]. *)
Inductive exn : Type :=
| KeyError (key : value)
| IndexError
| TypeError
| AttributeError
| ValueError
| OverflowError
| JSONDecodeError
| ConnectionClosed            (* websockets.exceptions.ConnectionClosed *)
| OSError.                    (* refused, unreachable, timed out, ... *)

Inductive result (A : Type) : Type :=
| Ok (a : A)
| Raise (e : exn).
Arguments Ok {A} a.
Arguments Raise {A} e.

Definition bind {A B} (r : result A) (k : A -> result B) : result B :=
  match r with
  | Ok a => k a
  | Raise e => Raise e
  end.

(** ** Containers *)

Fixpoint assoc (k : string) (kv : list (string * value)) : option value :=
  match kv with
  | [] => None
  | (k', v) :: rest => if String.eqb k k' then Some v else assoc k rest
  end.

(** [d.get(k)] *)
Definition dict_get (d : value) (k : string) : result value :=
  match d with
  | PyDict kv => Ok (match assoc k kv with Some v => v | None => PyNone end)
  | _ => Raise AttributeError
  end.

(** [d[k]] for a string [k] *)
Definition getitem (d : value) (k : string) : result value :=
  match d with
  | PyDict kv =>
      match assoc k kv with
      | Some v => Ok v
      | None => Raise (KeyError (PyStr k))
      end
  | _ => Raise TypeError   (* list and str want integer indices, the
                              other types are not subscriptable *)
  end.

(** [v[0]] *)
Definition getitem_0 (v : value) : result value :=
  match v with
  | PyList (first :: _) => Ok first
  | PyList [] => Raise IndexError
  | PyStr (String c _) => Ok (PyStr (String c EmptyString))
  | PyStr EmptyString => Raise IndexError
  | PyDict _ => Raise (KeyError (PyInt 0))   (* keys are strings *)
  | _ => Raise TypeError
  end.

(** [bool(v)], what [if v:] tests *)
Definition truthy (v : value) : bool :=
  match v with
  | PyNone => false
  | PyBool b => b
  | PyInt n => negb (n =? 0)%Z
  | PyFloat f => negb (f =? 0)%float
  | PyStr s => negb (String.eqb s EmptyString)
  | PyList l => match l with [] => false | _ => true end
  | PyDict l => match l with [] => false | _ => true end
  end.

(** ** Numbers *)

(** [bool] is a subclass of [int]. *)
Inductive number : Type :=
| NInt (n : Z)
| NFloat (f : float).

Definition as_number (v : value) : option number :=
  match v with
  | PyBool b => Some (NInt (Z.b2z b))
  | PyInt n => Some (NInt n)
  | PyFloat f => Some (NFloat f)
  | _ => None
  end.

(** The binary64 nearest to [n * 2^e], ties to even; overflow is an
    [OverflowError], as in [PyLong_AsDouble] and in [int / int]. *)
Definition round_scaled (n e : Z) : result float :=
  let f := SF2Prim (binary_normalize prec emax n e false) in
  if is_infinity f then Raise OverflowError else Ok f.

(** [float(n)] *)
Definition float_of_int (n : Z) : result float := round_scaled n 0.

(** What a C function with a [double] parameter receives. *)
Definition as_double (v : value) : result float :=
  match as_number v with
  | Some (NInt n) => float_of_int n
  | Some (NFloat f) => Ok f
  | None => Raise TypeError
  end.

Definition repeat_string (s : string) (n : Z) : string :=
  String.concat EmptyString (List.repeat s (Z.to_nat n)).

Definition repeat_list (l : list value) (n : Z) : list value :=
  List.concat (List.repeat l (Z.to_nat n)).

(** [a * b] *)
Definition mul (a b : value) : result value :=
  match as_number a, as_number b with
  | Some (NInt x), Some (NInt y) => Ok (PyInt (x * y))
  | Some (NFloat x), Some (NFloat y) => Ok (PyFloat (x * y))
  | Some (NFloat x), Some (NInt y) =>
      bind (float_of_int y) (fun fy => Ok (PyFloat (x * fy)))
  | Some (NInt x), Some (NFloat y) =>
      bind (float_of_int x) (fun fx => Ok (PyFloat (fx * y)))
  | None, Some (NInt n) =>
      match a with
      | PyStr s => Ok (PyStr (repeat_string s n))
      | PyList l => Ok (PyList (repeat_list l n))
      | _ => Raise TypeError
      end
  | Some (NInt n), None =>
      match b with
      | PyStr s => Ok (PyStr (repeat_string s n))
      | PyList l => Ok (PyList (repeat_list l n))
      | _ => Raise TypeError
      end
  | _, _ => Raise TypeError
  end.

(** [v / 2] with the [int] literal 2.  For an [int] numerator Python
    returns the correctly rounded quotient, and [n / 2] is exactly
    [n * 2^-1]. *)
Definition truediv_2 (v : value) : result float :=
  match as_number v with
  | Some (NInt n) => round_scaled n (-1)
  | Some (NFloat f) => Ok (f / 2)%float
  | None => Raise TypeError
  end.

(** [int(x)] for a [float]: truncation towards zero. *)
Definition trunc_magnitude (m : positive) (e : Z) : Z :=
  if (0 <=? e)%Z then (Zpos m * 2 ^ e)%Z else (Zpos m / 2 ^ (- e))%Z.

Definition int_of_float (x : float) : result Z :=
  match Prim2SF x with
  | S754_nan => Raise ValueError
  | S754_infinity _ => Raise OverflowError
  | S754_zero _ => Ok 0%Z
  | S754_finite s m e =>
      let n := trunc_magnitude m e in Ok (if s then - n else n)
  end.

(** ** The [math] module *)

(** [math.cos] and [math.sin] call the platform's C library. *)
Record libm : Type := Libm {
  cos : float -> float;
  sin : float -> float
}.

Definition pi : float := 0x1.921fb54442d18p+1%float.
Definition degToRad : float := (pi / 180)%float.

(** [math.radians(v)] *)
Definition radians (v : value) : result float :=
  bind (as_double v) (fun x => Ok (x * degToRad)%float).

(** CPython's wrapper [math_1] around a libm function that cannot
    overflow: a NaN from a number and an infinity from a finite number
    are both a [ValueError]. *)
Definition math_1 (func : float -> float) (x : float) : result float :=
  let r := func x in
  if is_nan r && negb (is_nan x) then Raise ValueError
  else if is_infinity r && is_finite x then Raise ValueError
  else Ok r.

Definition math_cos (m : libm) (x : float) : result float := math_1 (cos m) x.
Definition math_sin (m : libm) (x : float) : result float := math_1 (sin m) x.

(** [json.loads] is a library function: a received frame is
    classified by what it makes of it. *)
Inductive frame : Type :=
| Document (v : value)       (* the text of a JSON document denoting [v] *)
| Garbage (raw : string).    (* any other payload *)

Definition json_loads (message : frame) : result value :=
  match message with
  | Document v => Ok v
  | Garbage _ => Raise JSONDecodeError
  end.

End Py.

Import Py.

Notation "x <- e ;; k" := (bind e (fun x => k))
(at level 61, e at next level, right associativity).

(* ================================================================== *)
(** * WebSocketWorker *)
(* ================================================================== *)

(** The worker's two Qt signals.  [message_received] is declared with
    [dict]; the properties below emit JSON objects only, and what the
    binding does with a document of another type is left out. *)
Inductive signal : Type :=
| message_received (json_data : value)
| connection_status (status : bool).

(** What the worker does that can be observed from outside, in program
    order. *)
Inductive action : Type :=
| Connect (uri : string)          (* websockets.connect(uri) is awaited *)
| Close                           (* the [async with] block is left *)
| Emit (s : signal)
| PrintError (e : exn)            (* print(f"WebSocket connection error: {e}") *)
| Sleep (seconds : Z).            (* asyncio.sleep(seconds) is awaited *)

(** Where the coroutine [websocket_client] is suspended: at
    [connect()], at [recv()] or at [sleep(5)].  Leaving the
    [async with] block of line 40 awaits the closing handshake as well;
    that wait is not a point of its own here, it is part of the action
    [Close]. *)
Inductive suspended : Type :=
| AwaitConnect                    (* line 40 *)
| AwaitRecv                       (* line 44 *)
| AwaitSleep                      (* line 52 *)
| Returned.

Record WebSocketWorker : Type := {
  running : bool;
  at_ : suspended
}.

(** What the event loop resumes the coroutine with. *)
Inductive completion : Type :=
| Connected                       (* the session is established *)
| ConnectRaised (e : exn)
| Received (message : frame)      (* recv() returned *)
| RecvRaised (e : exn)
| Woken.                          (* the sleep is over *)

(** [stop()] runs on the GUI thread, whenever the window is closed. *)
Inductive input : Type :=
| Resume (c : completion)
| Stop.

Definition uri : string := "ws://localhost:4000".

Definition WebSocketWorker_init : WebSocketWorker :=
  {| running := false; at_ := Returned |}.

(** Line 38, [while self.running:] of the outer loop. *)
Definition outer_loop (self : WebSocketWorker) : WebSocketWorker * list action :=
  if running self
  then ({| running := running self; at_ := AwaitConnect |}, [Connect uri])
  else ({| running := running self; at_ := Returned |}, []).

(** Line 42, [while self.running:] of the receive loop; leaving it
    leaves the [async with] block, and the outer loop goes on. *)
Definition recv_loop (self : WebSocketWorker) : WebSocketWorker * list action :=
  if running self
  then ({| running := running self; at_ := AwaitRecv |}, [])
  else let (self', out) := outer_loop self in (self', Close :: out).

(** Lines 49-52, [except Exception as e:]. *)
Definition on_exception (self : WebSocketWorker) (e : exn)
  : WebSocketWorker * list action :=
  ({| running := running self; at_ := AwaitSleep |},
   [PrintError e; Emit (connection_status false); Sleep 5]).

Definition prepend (out : list action) (r : WebSocketWorker * list action)
  : WebSocketWorker * list action :=
  (fst r, out ++ snd r).

(** One resumption of [websocket_client], up to its next [await]. *)
Definition resume (self : WebSocketWorker) (c : completion)
  : option (WebSocketWorker * list action) :=
  match at_ self, c with
  | AwaitConnect, Connected =>
      Some (prepend [Emit (connection_status true)] (recv_loop self))
  | AwaitConnect, ConnectRaised e =>
      Some (on_exception self e)
  | AwaitRecv, Received message =>
      match json_loads message with
      | Ok json_data =>
          Some (prepend [Emit (message_received json_data)] (recv_loop self))
      | Raise e =>
          Some (prepend [Close] (on_exception self e))
      end
  | AwaitRecv, RecvRaised ConnectionClosed =>       (* line 47: break *)
      Some (prepend [Close] (outer_loop self))
  | AwaitRecv, RecvRaised e =>
      Some (prepend [Close] (on_exception self e))
  | AwaitSleep, Woken =>
      Some (outer_loop self)
  | _, _ => None
  end.

(** [start_websocket]: [self.running = True], then the coroutine runs
    to its first [await]. *)
Definition start_websocket (self : WebSocketWorker)
  : WebSocketWorker * list action :=
  outer_loop {| running := true; at_ := at_ self |}.

Definition stop (self : WebSocketWorker) : WebSocketWorker :=
  {| running := false; at_ := at_ self |}.

(** [RadarWindow.closeEvent], as far as the worker is concerned. *)
Definition closeEvent (websocket_worker : WebSocketWorker) : WebSocketWorker :=
  stop websocket_worker.

Definition step (self : WebSocketWorker) (i : input)
  : option (WebSocketWorker * list action) :=
  match i with
  | Resume c => resume self c
  | Stop => Some (stop self, [])
  end.

(** A schedule of inputs, and the actions it produces. *)
Fixpoint run (self : WebSocketWorker) (inputs : list input)
  : option (WebSocketWorker * list action) :=
  match inputs with
  | [] => Some (self, [])
  | i :: rest =>
      match step self i with
      | None => None
      | Some (self', out) =>
          match run self' rest with
          | None => None
          | Some (self'', out') => Some (self'', out ++ out')
          end
      end
  end.

(* ================================================================== *)
(** * RadarWidget *)
(* ================================================================== *)

Record QPoint : Type := mkQPoint {
  point_x : Z;
  point_y : Z
}.

(** [QPoint(x, y)] takes two C [int]s: the binding raises
    [OverflowError] for a Python [int] that does not fit. *)
Definition fits_int (n : Z) : bool :=
  (-2147483648 <=? n) && (n <=? 2147483647).

Definition QPoint_new (x y : Z) : result QPoint :=
  if fits_int x && fits_int y then Ok (mkQPoint x y) else Raise OverflowError.

Record RadarWidget : Type := {
  angle : value;
  dot_position : QPoint;
  dot_visible : bool
}.

Definition RadarWidget_init : RadarWidget :=
  {| angle := PyInt 0; dot_position := mkQPoint 150 150; dot_visible := false |}.

(** [QColor(r, g, b, a)]; the alpha channel is 255 when left out. *)
Record QColor : Type := mkQColor {
  red : Z;
  green : Z;
  blue : Z;
  alpha : Z
}.

(** The calls [draw_radar] makes on its painter. *)
Inductive paint : Type :=
| setRenderHint_Antialiasing
| setPen (c : QColor)
| setBrush (c : QColor)
| drawEllipse (left top width height : Z)
| save
| translate (dx dy : Z)
| rotate (degrees : value)
| drawRect (left top width height : Z)
| restore.

Definition draw_background : list paint :=
  [setRenderHint_Antialiasing;
   setPen (mkQColor 0 255 0 255);
   setBrush (mkQColor 0 0 0 255);
   drawEllipse 10 10 280 280].

Definition draw_circles : list paint :=
  map (fun i => let radius := i * 70 in
                drawEllipse (150 - radius) (150 - radius) (radius * 2) (radius * 2))
      [1; 2; 3].

Definition draw_beam (self : RadarWidget) : list paint :=
  [save; translate 150 150; rotate (angle self);
   setBrush (mkQColor 0 255 0 100); drawRect (-2) 0 200 4; restore].

Definition draw_dot (self : RadarWidget) : list paint :=
  if dot_visible self
  then [setBrush (mkQColor 255 0 0 255);
        drawEllipse (point_x (dot_position self) - 3)
                    (point_y (dot_position self) - 3) 6 6]
  else [].

Definition draw_radar (self : RadarWidget) : list paint :=
  draw_background ++ draw_circles ++ draw_beam self ++ draw_dot self.

(** [paintEvent] paints and leaves the widget as it is. *)
Definition paintEvent (self : RadarWidget) : RadarWidget * list paint :=
  (self, draw_radar self).

(** What the GUI thread does besides changing the widget. *)
Inductive effect : Type :=
| Update                                   (* QWidget.update() *)
| Print (text : string) (e : option exn).  (* print(...) *)

Definition update_radar_data (self : RadarWidget) (angle : value) (position : QPoint)
  : RadarWidget * list effect :=
  ({| angle := angle; dot_position := position; dot_visible := true |}, [Update]).

(* ================================================================== *)
(** * RadarWindow *)
(* ================================================================== *)

Section RadarWindow.

Variable m : libm.

(** Lines 130-134 of [process_message]: the scan angle and the float
    coordinates [x] and [y]. *)
Definition coordinates (json_object : value) : result (value * (float * float)) :=
  angle <- getitem json_object "scanAngle" ;;
  echoResponses <- getitem json_object "echoResponses" ;;
  first <- getitem_0 echoResponses ;;
  time <- getitem first "time" ;;
  scaled <- mul time (PyInt 300000) ;;
  halved <- truediv_2 scaled ;;
  let relative_distance := (halved / 200)%float in
  theta <- radians angle ;;
  c <- math_cos m theta ;;
  let x := (relative_distance * 150 * c + 150)%float in
  theta' <- radians angle ;;
  s <- math_sin m theta' ;;
  let y := (relative_distance * 150 * s + 150)%float in
  Ok (angle, (x, y)).

(** Lines 129-134: nothing is computed unless [echoResponses] is
    truthy. *)
Definition computed_position (json_object : value)
  : result (option (value * (float * float))) :=
  echoes <- dict_get json_object "echoResponses" ;;
  if truthy echoes
  then p <- coordinates json_object ;; Ok (Some p)
  else Ok None.

(** The [try] block of [process_message]. *)
Definition process_message_try (self : RadarWidget) (json_object : value)
  : result (RadarWidget * list effect) :=
  p <- computed_position json_object ;;
  match p with
  | Some (angle, (x, y)) =>
      ix <- int_of_float x ;;
      iy <- int_of_float y ;;
      position <- QPoint_new ix iy ;;
      Ok (update_radar_data self angle position)
  | None => Ok (self, [])
  end.

Definition process_message (self : RadarWidget) (json_object : value)
  : RadarWidget * list effect :=
  match process_message_try self json_object with
  | Ok r => r
  | Raise e => (self, [Print "Error processing message: " (Some e)])
  end.

Definition handle_connection (self : RadarWidget) (status : bool)
  : RadarWidget * list effect :=
  if status
  then (self, [Print "WebSocket Connected" None])
  else (self, [Print "WebSocket Disconnected" None]).

(** The slot a signal of the worker is connected to. *)
Definition slot (self : RadarWidget) (s : signal) : RadarWidget * list effect :=
  match s with
  | message_received json_data => process_message self json_data
  | connection_status status => handle_connection self status
  end.

(** The GUI thread handles the queued signals in the order of their
    emission. *)
Fixpoint deliver (self : RadarWidget) (signals : list signal)
  : RadarWidget * list effect :=
  match signals with
  | [] => (self, [])
  | s :: rest =>
      let (self', out) := slot self s in
      let (self'', out') := deliver self' rest in
      (self'', out ++ out')
  end.

End RadarWindow.

(** The signals among the actions of the worker. *)
Fixpoint emitted (out : list action) : list signal :=
  match out with
  | [] => []
  | Emit s :: rest => s :: emitted rest
  | _ :: rest => emitted rest
  end.

(* ================================================================== *)
(** * Vocabulary of the properties *)
(* ================================================================== *)

(** [after_sleep prev]: the action before was a five-second [Sleep], or
    there was none. *)
Definition after_sleep (prev : option action) : bool :=
  match prev with
  | None => true
  | Some (Sleep seconds) => seconds =? 5
  | Some _ => false
  end.

(** [paced prev out]: every [Connect] of [out] comes right after a
    five-second [Sleep], or opens the trace ([prev] is the action before
    [out], if any). *)
Fixpoint paced (prev : option action) (out : list action) : bool :=
  match out with
  | [] => true
  | a :: rest =>
      match a with
      | Connect _ => after_sleep prev
      | _ => true
      end && paced (Some a) rest
  end.

Fixpoint last_action (prev : option action) (out : list action) : option action :=
  match out with
  | [] => prev
  | a :: rest => last_action (Some a) rest
  end.

(** The worker reports the loss and waits: it is left asleep, having
    emitted [connection_status(False)] and slept five seconds. *)
Definition backs_off (r : option (WebSocketWorker * list action)) : Prop :=
  exists self out,
    r = Some (self, out) /\ at_ self = AwaitSleep
    /\ In (Emit (connection_status false)) out /\ In (Sleep 5) out.

(** A worker that sleeps has just gone to sleep. *)
Definition rested (prev : option action) (self : WebSocketWorker) : Prop :=
  at_ self = AwaitSleep -> after_sleep prev = true.

(** [n] failed attempts to connect, each followed by the end of the
    sleep. *)
Fixpoint refusals (e : exn) (n : nat) : list input :=
  match n with
  | O => []
  | S n' => Resume (ConnectRaised e) :: Resume Woken :: refusals e n'
  end.

Fixpoint refusals_trace (e : exn) (n : nat) : list action :=
  match n with
  | O => []
  | S n' =>
      PrintError e :: Emit (connection_status false) :: Sleep 5 :: Connect uri
      :: refusals_trace e n'
  end.

(** The rational number a finite binary64 stands for (0 for the
    others). *)
Definition SF2Q (f : spec_float) : Q :=
  match f with
  | S754_finite s m e =>
      let magnitude :=
        match e with
        | Zneg p => Zpos m # (2 ^ p)
        | _ => inject_Z (Zpos m * 2 ^ e)
        end in
      if s then Qopp magnitude else magnitude
  | _ => 0%Q
  end.

Definition float_value (x : float) : Q := SF2Q (Prim2SF x).

(** [n] lies between 0 and [v]: with a distance below 1 this makes [n]
    the truncation of [v] towards zero. *)
Definition toward_zero (v : Q) (n : Z) : Prop :=
  ((0 <= v -> 0 <= inject_Z n /\ inject_Z n <= v)
   /\ (v <= 0 -> v <= inject_Z n /\ inject_Z n <= 0))%Q.

(** [v] truncates to a C [int]. *)
Definition within_int (v : Q) : Prop :=
  (inject_Z (-2147483648) - 1 < v /\ v < inject_Z 2147483647 + 1)%Q.

(** The range fraction of line 131 for a [float] time. *)
Definition range_fraction (time : float) : float :=
  (time * 300000 / 2 / 200)%float.

(** The angle in radians for an [int] scan angle that [float()] takes. *)
Definition bearing (scanAngle : Z) : float :=
  (SF2Prim (binary_normalize prec emax scanAngle 0 false) * degToRad)%float.

(** Lines 133-134 for a range fraction [r] and a bearing [theta]. *)
Definition surface_x (m : libm) (r theta : float) : float :=
  (r * 150 * cos m theta + 150)%float.
Definition surface_y (m : libm) (r theta : float) : float :=
  (r * 150 * sin m theta + 150)%float.

(** Documents of the wire protocol. *)
Definition echo_response (time power : float) : value :=
  PyDict [("time"%string, PyFloat time); ("power"%string, PyFloat power)].

Definition scan_report (scanAngle pulseDuration : Z) (echoResponses : list value)
  : value :=
  PyDict [("scanAngle"%string, PyInt scanAngle);
          ("pulseDuration"%string, PyInt pulseDuration);
          ("echoResponses"%string, PyList echoResponses)].

(** ** A libm for the examples

    The results of the C library's [cos] and [sin] at the arguments the
    examples use: [0.0], where C (Annex F) fixes them, and
    [math.radians] of 90, 359 and 360, as glibc returns them.
    Elsewhere the table is silent and the functions below answer NaN,
    so an example at any other angle fails instead of showing a made-up
    position. *)
Definition libm_table : list (float * (float * float)) :=
  [ (0%float, (1%float, 0%float));
    (0x1.921fb54442d18p+0%float, (0x1.1a62633145c07p-54%float, 1%float));
    (0x1.9101c0da1da7bp+2%float,
     (0x1.ffec097f5af8ap-1%float, (-0x1.1df0b2b89dd2cp-6)%float));
    (0x1.921fb54442d18p+2%float, (1%float, (-0x1.1a62633145c07p-52)%float)) ].

Fixpoint table_lookup (t : list (float * (float * float))) (x : float)
  : option (float * float) :=
  match t with
  | [] => None
  | (a, r) :: rest => if Leibniz.eqb a x then Some r else table_lookup rest x
  end.

Definition libm_sample : libm :=
  Libm (fun x => match table_lookup libm_table x with Some (c, _) => c | None => nan end)
       (fun x => match table_lookup libm_table x with Some (_, s) => s | None => nan end).

(** 0.001 and 0.002 seconds, 1e308 seconds, as [json.loads] reads them. *)
Definition ms1 : float := 0x1.0624dd2f1a9fcp-10%float.
Definition ms2 : float := 0x1.0624dd2f1a9fcp-9%float.
Definition huge : float := 0x1.1ccf385ebc8ap+1023%float.

(** Scenario A and scenario B of the specification. *)
Definition scenario_A : value := scan_report 0 10 [echo_response ms1 0.5].
Definition scenario_B : value := scan_report 90 5 [].

Definition receiving : WebSocketWorker := {| running := true; at_ := AwaitRecv |}.
Definition connecting : WebSocketWorker := {| running := true; at_ := AwaitConnect |}.
Definition sleeping : WebSocketWorker := {| running := true; at_ := AwaitSleep |}.
Definition returned : WebSocketWorker := {| running := false; at_ := Returned |}.

(* ================================================================== *)
(** * Vocabulary of the further properties *)
(* ================================================================== *)

(** The payloads of the [message_received] signals of a trace, in
    order. *)
Fixpoint messages (out : list action) : list value :=
  match out with
  | [] => []
  | Emit (message_received v) :: rest => v :: messages rest
  | _ :: rest => messages rest
  end.

(** The documents among the frames a schedule hands to [recv()], in
    order. *)
Fixpoint documents (inputs : list input) : list value :=
  match inputs with
  | [] => []
  | Resume (Received (Document v)) :: rest => v :: documents rest
  | _ :: rest => documents rest
  end.

(** The worker is inside its [async with] block. *)
Definition in_session (self : WebSocketWorker) : bool :=
  match at_ self with
  | AwaitRecv => true
  | _ => false
  end.

(** [bracketed open out]: read from a point where a session is [open]
    or not, the trace opens a session only when none is open, emits
    messages and closes only inside one, and connects, prints, reports
    a disconnection and sleeps only outside; the result tells whether a
    session is open at the end. *)
Fixpoint bracketed (open : bool) (out : list action) : option bool :=
  match out with
  | [] => Some open
  | a :: rest =>
      match a with
      | Emit (connection_status true) => if open then None else bracketed true rest
      | Emit (message_received _) => if open then bracketed true rest else None
      | Close => if open then bracketed false rest else None
      | Connect _ | PrintError _ | Emit (connection_status false) | Sleep _ =>
          if open then None else bracketed false rest
      end
  end.

(** The completions that end in the handler of lines 49-52. *)
Definition is_failure (i : input) : bool :=
  match i with
  | Resume (ConnectRaised _) => true
  | Resume (Received (Garbage _)) => true
  | Resume (RecvRaised ConnectionClosed) => false
  | Resume (RecvRaised _) => true
  | _ => false
  end.

Definition is_established (i : input) : bool :=
  match i with
  | Resume Connected => true
  | _ => false
  end.

Definition is_resume (i : input) : bool :=
  match i with
  | Resume _ => true
  | Stop => false
  end.


Definition is_status (status : bool) (a : action) : bool :=
  match a with
  | Emit (connection_status b) => Bool.eqb b status
  | _ => false
  end.

Definition is_print (a : action) : bool :=
  match a with
  | PrintError _ => true
  | _ => false
  end.

Definition is_sleep_5 (a : action) : bool :=
  match a with
  | Sleep seconds => seconds =? 5
  | _ => false
  end.

Definition count {A : Type} (p : A -> bool) (l : list A) : nat :=
  List.length (filter p l).

(** A result of [connect()] or of [recv()], a value or an exception. *)
Definition is_io (i : input) : bool :=
  match i with
  | Resume Woken => false
  | Resume _ => true
  | Stop => false
  end.

(** The end of a [sleep(5)]. *)
Definition is_woken (i : input) : bool :=
  match i with
  | Resume Woken => true
  | _ => false
  end.

(** The coroutine waits for [connect()] or for [recv()]. *)
Definition at_io (p : suspended) : bool :=
  match p with
  | AwaitConnect | AwaitRecv => true
  | AwaitSleep | Returned => false
  end.

Definition has_returned (p : suspended) : bool :=
  match p with
  | Returned => true
  | _ => false
  end.

(** [painter.rotate] and [math.radians] want a number. *)
Definition numeric (v : value) : bool :=
  match as_number v with
  | Some _ => true
  | None => false
  end.

(** What the two fields [update_radar_data] assigns always hold: an
    angle that is a number and a position [QPoint] has accepted, each
    coordinate a C [int].  This is less than what [draw_radar] needs:
    line 93 passes [x - 3] and [y - 3] to [drawEllipse], and these can
    lie below the range of a C [int]. *)
Definition well_typed (self : RadarWidget) : bool :=
  numeric (angle self)
  && fits_int (point_x (dot_position self))
  && fits_int (point_y (dot_position self)).

(** The left and top of an ellipse are at most 3 below a C [int]. *)
Definition near_int (n : Z) : bool :=
  (-2147483651 <=? n) && (n <=? 2147483647).

Definition ellipse_near_int (p : paint) : bool :=
  match p with
  | drawEllipse x y width height =>
      near_int x && near_int y && fits_int width && fits_int height
  | _ => true
  end.

(** An echo of 19088.744875 seconds, as [json.loads] reads it, and a
    libm that knows the half turn only: [cos] and [sin] of
    [math.radians(180)], as glibc returns them. *)
Definition edge_time : float := 0x1.2a42fac083127p+14%float.

Definition libm_half_turn : libm :=
  let t := [(pi, ((-1)%float, 0x1.1a62633145c07p-53%float))] in
  Libm (fun x => match table_lookup t x with Some (c, _) => c | None => nan end)
       (fun x => match table_lookup t x with Some (_, s) => s | None => nan end).

Definition is_message (s : signal) : bool :=
  match s with
  | message_received _ => true
  | connection_status _ => false
  end.

Definition is_update (e : effect) : bool :=
  match e with
  | Update => true
  | Print _ _ => false
  end.

(** The line [handle_connection] prints for [status]. *)
Definition is_connection_line (status : bool) (e : effect) : bool :=
  match e with
  | Print text None =>
      String.eqb text (if status then "WebSocket Connected" else "WebSocket Disconnected")
  | _ => false
  end.

(** The 6 by 6 ellipse of the marker. *)
Definition is_marker (p : paint) : bool :=
  match p with
  | drawEllipse _ _ width height => (width =? 6) && (height =? 6)
  | _ => false
  end.

Definition is_status_signal (status : bool) (s : signal) : bool :=
  match s with
  | connection_status b => Bool.eqb b status
  | message_received _ => false
  end.

(** [float(n)] where it does not overflow. *)
Definition float_of (n : Z) : float :=
  SF2Prim (binary_normalize prec emax n 0 false).

(** Line 131 up to the division by 2. *)
Definition halved_time (time : value) : result float :=
  scaled <- mul time (PyInt 300000) ;;
  truediv_2 scaled.

(** The frames of a schedule that are JSON documents are JSON objects,
    as the signal [message_received] is declared for. *)
Definition objects_only (inputs : list input) : bool :=
  forallb (fun i => match i with
                    | Resume (Received (Document (PyDict _))) => true
                    | Resume (Received (Document _)) => false
                    | _ => true
                    end) inputs.

(** The cases of one step of the worker, with the step computed in
    each. *)
Ltac worker_cases self i H :=
  let r := fresh "r" in
  let p := fresh "p" in
  let c := fresh "c" in
  let exc := fresh "exc" in
  let msg := fresh "msg" in
  destruct self as [r p];
  destruct i as [c|];
  [ destruct p; destruct c as [ |exc|msg|exc| ]; simpl in H;
    try discriminate H;
    try destruct msg; try destruct exc; destruct r
  | destruct r ];
  simpl in H; inversion H; subst; clear H.

(* ================================================================== *)
(** * The connection loop *)
(* ================================================================== *)

Lemma paced_app (a b : list action) :
  forall prev, paced prev (a ++ b) = paced prev a && paced (last_action prev a) b.
Proof.
  induction a as [|x a IH]; intros prev; simpl.
  - reflexivity.
  - rewrite IH. now rewrite andb_assoc.
Qed.

Lemma run_cons (self : WebSocketWorker) (i : input) (rest : list input) :
  run self (i :: rest) =
  match step self i with
  | None => None
  | Some (self', out) =>
      match run self' rest with
      | None => None
      | Some (self'', out') => Some (self'', out ++ out')
      end
  end.
Proof. reflexivity. Qed.

Lemma step_paced (self self' : WebSocketWorker) (i : input) (out : list action)
      (prev : option action) :
  i <> Resume (RecvRaised ConnectionClosed) ->
  rested prev self ->
  step self i = Some (self', out) ->
  paced prev out = true /\ rested (last_action prev out) self'.
Proof.
  intros Hi Hprev Hstep. unfold rested in *.
  destruct self as [r p]. destruct i as [c|]; simpl in Hstep.
  - destruct p, c; simpl in Hstep; try discriminate.
    + destruct r; inversion Hstep; subst; simpl; split;
        [reflexivity | discriminate | reflexivity | discriminate].
    + inversion Hstep; subst; simpl. split; [reflexivity | reflexivity].
    + destruct message; simpl in Hstep.
      * destruct r; inversion Hstep; subst; simpl; split;
          [reflexivity | discriminate | reflexivity | discriminate].
      * inversion Hstep; subst; simpl. split; reflexivity.
    + destruct e; try (inversion Hstep; subst; simpl; split; reflexivity).
      now elim Hi.
    + specialize (Hprev eq_refl).
      destruct r; inversion Hstep; subst; simpl.
      * rewrite Hprev. split; [reflexivity | discriminate].
      * split; [reflexivity | discriminate].
  - inversion Hstep; subst; simpl. split; [reflexivity | exact Hprev].
Qed.

Lemma run_paced (inputs : list input) :
  forall self self' out prev,
    ~ In (Resume (RecvRaised ConnectionClosed)) inputs ->
    rested prev self ->
    run self inputs = Some (self', out) ->
    paced prev out = true.
Proof.
  induction inputs as [|i rest IH]; intros self self' out prev Hno Hprev Hrun.
  - inversion Hrun; reflexivity.
  - rewrite run_cons in Hrun.
    destruct (step self i) as [[self1 out1]|] eqn:Hstep; [|discriminate].
    destruct (run self1 rest) as [[self2 out2]|] eqn:Hrest; [|discriminate].
    inversion Hrun; subst.
    destruct (@step_paced self self1 i out1 prev) as [H1 H2]; auto.
    { intros ->. apply Hno. now left. }
    rewrite paced_app, H1. simpl.
    apply (IH self1 self' out2); auto.
    intros Hin. apply Hno. now right.
Qed.

Lemma step_keeps_running (self self' : WebSocketWorker) (i : input) (out : list action) :
  running self = true -> at_ self <> Returned -> i <> Stop ->
  step self i = Some (self', out) ->
  running self' = true /\ at_ self' <> Returned.
Proof.
  intros Hr Hat Hi Hstep.
  destruct self as [r p]; simpl in Hr; subst r.
  destruct i as [c|]; [|now elim Hi]. simpl in Hstep.
  destruct p, c; simpl in Hstep; try discriminate;
    try (inversion Hstep; subst; simpl; split; [reflexivity | discriminate]).
  - destruct message; inversion Hstep; subst; simpl; split;
      reflexivity || discriminate.
  - destruct e; inversion Hstep; subst; simpl; split; reflexivity || discriminate.
Qed.

Lemma run_keeps_running (inputs : list input) :
  forall self self' out,
    running self = true -> at_ self <> Returned -> ~ In Stop inputs ->
    run self inputs = Some (self', out) ->
    running self' = true /\ at_ self' <> Returned.
Proof.
  induction inputs as [|i rest IH]; intros self self' out Hr Hat Hno Hrun.
  - inversion Hrun; subst; auto.
  - rewrite run_cons in Hrun.
    destruct (step self i) as [[self1 out1]|] eqn:Hstep; [|discriminate].
    destruct (run self1 rest) as [[self2 out2]|] eqn:Hrest; [|discriminate].
    inversion Hrun; subst.
    destruct (@step_keeps_running self self1 i out1) as [H1 H2]; auto.
    { intros ->. apply Hno. now left. }
    apply (IH self1 self' out2); auto.
    intros Hin. apply Hno. now right.
Qed.

Lemma resume_refused (e : exn) :
  resume connecting (ConnectRaised e)
  = Some (sleeping, [PrintError e; Emit (connection_status false); Sleep 5]).
Proof. reflexivity. Qed.

Lemma resume_woken : resume sleeping Woken = Some (connecting, [Connect uri]).
Proof. reflexivity. Qed.

Lemma run_refusals (e : exn) (n : nat) :
  run connecting (refusals e n) = Some (connecting, refusals_trace e n).
Proof.
  induction n as [|n IH].
  - reflexivity.
  - change (refusals e (S n))
      with (Resume (ConnectRaised e) :: Resume Woken :: refusals e n).
    rewrite run_cons. unfold step at 1. rewrite resume_refused.
    rewrite run_cons. unfold step at 1. rewrite resume_woken.
    rewrite IH. reflexivity.
Qed.

(** C1, as the code has it.  A failure to establish the session, and
    any exception in an established session other than
    [ConnectionClosed], is printed, answered by
    [connection_status(False)] and followed by a five-second sleep; the
    next [connect] comes when the sleep is over.  When the session is
    closed ([ConnectionClosed]) the worker leaves the receive loop and
    connects again at once, with no signal and no sleep.  Attempts have
    no bound: [n] refusals in a row leave the worker connecting, and as
    long as [stop] is not called the coroutine never returns, while
    after [stop] it returns at its next loop test; in a schedule where
    no session is closed by the peer, every [connect] comes right after
    a five-second sleep. *)
Theorem C1_backoff_after_failure_not_after_close :
  forall (e : exn) (n : nat) (inputs : list input)
         (self : WebSocketWorker) (out : list action),
    e <> ConnectionClosed ->
    ~ In Stop inputs ->
    run connecting inputs = Some (self, out) ->
    start_websocket WebSocketWorker_init = (connecting, [Connect uri])
    /\ resume connecting (ConnectRaised e)
       = Some (sleeping, [PrintError e; Emit (connection_status false); Sleep 5])
    /\ resume receiving (RecvRaised e)
       = Some (sleeping, [Close; PrintError e; Emit (connection_status false); Sleep 5])
    /\ resume sleeping Woken = Some (connecting, [Connect uri])
    /\ resume receiving (RecvRaised ConnectionClosed)
       = Some (connecting, [Close; Connect uri])
    /\ run connecting (refusals e n) = Some (connecting, refusals_trace e n)
    /\ running self = true
    /\ at_ self <> Returned
    /\ run connecting [Stop; Resume (ConnectRaised e); Resume Woken]
       = Some (returned, [PrintError e; Emit (connection_status false); Sleep 5])
    /\ (~ In (Resume (RecvRaised ConnectionClosed)) inputs -> paced None out = true).
Proof.
  intros e n inputs self out He Hstop Hrun.
  split; [reflexivity|].
  split; [reflexivity|].
  split; [destruct e; try reflexivity; now elim He|].
  split; [reflexivity|].
  split; [reflexivity|].
  split; [apply run_refusals|].
  destruct (@run_keeps_running inputs connecting self out) as [Hr Hat];
    auto; try discriminate.
  split; [exact Hr|]. split; [exact Hat|].
  split; [reflexivity|].
  intros Hclosed.
  apply (@run_paced inputs connecting self out None); auto.
  intros H; discriminate H.
Qed.

Lemma C1_witness :
  run connecting (refusals OSError 2) = Some (connecting, refusals_trace OSError 2)
  /\ paced None
       [Emit (connection_status true); Emit (message_received (PyDict [])); Close;
        PrintError OSError; Emit (connection_status false); Sleep 5; Connect uri]
     = true.
Proof.
  destruct (@C1_backoff_after_failure_not_after_close
              OSError 2%nat
              [Resume Connected; Resume (Received (Document (PyDict [])));
               Resume (RecvRaised OSError); Resume Woken]
              connecting
              [Emit (connection_status true); Emit (message_received (PyDict [])); Close;
               PrintError OSError; Emit (connection_status false); Sleep 5; Connect uri])
    as (_ & _ & _ & _ & _ & Hn & _ & _ & _ & Hp).
  - discriminate.
  - simpl. intuition discriminate.
  - reflexivity.
  - split; [exact Hn|]. apply Hp. simpl. intuition discriminate.
Defined.

(** C1 fails for a session the peer closes: the worker does not back
    off, and a server that accepts and closes is dialled again and
    again with no sleep in between. *)
Lemma C1_counterexample :
  ~ backs_off (resume receiving (RecvRaised ConnectionClosed))
  /\ run connecting [Resume Connected; Resume (RecvRaised ConnectionClosed);
                     Resume Connected; Resume (RecvRaised ConnectionClosed)]
     = Some (connecting,
             [Emit (connection_status true); Close; Connect uri;
              Emit (connection_status true); Close; Connect uri]).
Proof.
  split; [|reflexivity].
  intros (self & out & H & Hat & _).
  inversion H; subst. discriminate Hat.
Qed.

(* ================================================================== *)
(** * Messages that cannot be handled *)
(* ================================================================== *)

Lemma process_message_no_scanAngle (m : libm) (self : RadarWidget)
      (kv : list (string * value)) (echoes : value) :
  assoc "echoResponses" kv = Some echoes ->
  truthy echoes = true ->
  assoc "scanAngle" kv = None ->
  process_message m self (PyDict kv)
  = (self, [Print "Error processing message: " (Some (KeyError (PyStr "scanAngle")))]).
Proof.
  intros He Ht Ha.
  unfold process_message, process_message_try, computed_position, coordinates.
  simpl. rewrite He. simpl. rewrite Ht. rewrite Ha. reflexivity.
Qed.

(** C2, as the code has it.  A frame that is a JSON document is emitted
    and the worker waits for the next frame in the same session; when
    the document has echoes and no [scanAngle], [process_message]
    prints the [KeyError], leaves the widget as it was and handles the
    next message as if the bad one had not come.  A frame that is not
    JSON ends the session: it is printed as a connection error,
    [connection_status(False)] is emitted and the worker sleeps. *)
Theorem C2_bad_document_skipped_bad_frame_ends_session :
  forall (m : libm) (self : RadarWidget) (raw : string)
         (kv kv' : list (string * value)) (echoes : value),
    assoc "echoResponses" kv = Some echoes ->
    truthy echoes = true ->
    assoc "scanAngle" kv = None ->
    let bad := PyDict kv in
    let next := PyDict kv' in
    let report := Print "Error processing message: "
                        (Some (KeyError (PyStr "scanAngle"))) in
    run receiving [Resume (Received (Document bad)); Resume (Received (Document next))]
    = Some (receiving, [Emit (message_received bad); Emit (message_received next)])
    /\ process_message m self bad = (self, [report])
    /\ deliver m self (emitted [Emit (message_received bad); Emit (message_received next)])
       = (fst (process_message m self next), report :: snd (process_message m self next))
    /\ resume receiving (Received (Garbage raw))
       = Some (sleeping,
               [Close; PrintError JSONDecodeError;
                Emit (connection_status false); Sleep 5]).
Proof.
  intros m self raw kv kv' echoes He Ht Ha bad next report.
  split; [reflexivity|].
  pose proof (@process_message_no_scanAngle m self kv echoes He Ht Ha) as Hbad.
  split; [exact Hbad|].
  split; [|reflexivity].
  subst bad report. cbn [emitted deliver slot]. rewrite Hbad.
  destruct (process_message m self next) as [self' out']. simpl.
  now rewrite app_nil_r.
Qed.

Lemma C2_witness :
  process_message libm_sample RadarWidget_init
    (PyDict [("pulseDuration"%string, PyInt 10);
             ("echoResponses"%string, PyList [echo_response ms1 0.5])])
  = (RadarWidget_init,
     [Print "Error processing message: " (Some (KeyError (PyStr "scanAngle")))]).
Proof.
  apply (@C2_bad_document_skipped_bad_frame_ends_session
           libm_sample RadarWidget_init EmptyString
           [("pulseDuration"%string, PyInt 10);
            ("echoResponses"%string, PyList [echo_response ms1 0.5])]
           []
           (PyList [echo_response ms1 0.5]));
    reflexivity.
Defined.

(** C2 fails for a payload that is not JSON: the session is closed and
    the worker backs off. *)
Lemma C2_counterexample :
  resume receiving (Received (Garbage "{"))
  = Some (sleeping,
          [Close; PrintError JSONDecodeError; Emit (connection_status false); Sleep 5]).
Proof. reflexivity. Qed.

(* ================================================================== *)
(** * Numbers *)
(* ================================================================== *)

(** ** [int()] of a float *)

Lemma Q_near_quotient (a : Z) (d : positive) (s : bool) :
  ((if s then Qopp (a # d) else a # d) - 1 < inject_Z (if s then - (a / Zpos d) else a / Zpos d)
   /\ inject_Z (if s then - (a / Zpos d) else a / Zpos d)
      < (if s then Qopp (a # d) else a # d) + 1)%Q.
Proof.
  pose proof (Z.div_mod a (Z.pos d) ltac:(lia)) as Hdm.
  pose proof (Z.mod_pos_bound a (Z.pos d) ltac:(lia)) as Hb.
  set (q := a / Z.pos d) in *.
  destruct s; unfold Qlt, Qminus, Qplus, Qopp, inject_Z; cbn [Qnum Qden];
    rewrite ?Pos.mul_1_r; nia.
Qed.

Lemma Q_near_integer (n : Z) (s : bool) :
  ((if s then Qopp (inject_Z n) else inject_Z n) - 1 < inject_Z (if s then - n else n)
   /\ inject_Z (if s then - n else n)
      < (if s then Qopp (inject_Z n) else inject_Z n) + 1)%Q.
Proof.
  destruct s; unfold Qlt, Qminus, Qplus, Qopp, inject_Z; cbn [Qnum Qden]; lia.
Qed.

Lemma Q_toward_zero_quotient (m d : positive) (s : bool) :
  toward_zero (if s then Qopp (Zpos m # d) else Zpos m # d)
              (if s then - (Zpos m / Zpos d) else Zpos m / Zpos d).
Proof.
  pose proof (Z.div_mod (Zpos m) (Z.pos d) ltac:(lia)) as Hdm.
  pose proof (Z.mod_pos_bound (Zpos m) (Z.pos d) ltac:(lia)) as Hb.
  pose proof (Z.div_pos (Zpos m) (Zpos d) ltac:(lia) ltac:(lia)) as Hq.
  set (q := Zpos m / Z.pos d) in *.
  unfold toward_zero.
  destruct s; unfold Qle, Qopp, inject_Z; cbn [Qnum Qden];
    rewrite ?Pos.mul_1_r; split; intros H; nia.
Qed.

Lemma Q_toward_zero_integer (n : Z) (s : bool) :
  0 <= n ->
  toward_zero (if s then Qopp (inject_Z n) else inject_Z n) (if s then - n else n).
Proof.
  intros Hn. unfold toward_zero.
  destruct s; unfold Qle, Qopp, inject_Z; cbn [Qnum Qden]; split; intros H; lia.
Qed.

Lemma trunc_magnitude_cases (m : positive) (e : Z) :
  (exists n, 0 <= n /\ trunc_magnitude m e = n
             /\ forall s, SF2Q (S754_finite s m e)
                          = if s then Qopp (inject_Z n) else inject_Z n)
  \/ (exists d, trunc_magnitude m e = Zpos m / Zpos d
                /\ forall s, SF2Q (S754_finite s m e)
                             = if s then Qopp (Zpos m # d) else Zpos m # d).
Proof.
  unfold SF2Q, trunc_magnitude.
  destruct e as [|p|p].
  - left. exists (Zpos m * 2 ^ 0). split; [lia|]. split; reflexivity.
  - left. exists (Zpos m * 2 ^ Zpos p). split; [|split; reflexivity].
    apply Z.mul_nonneg_nonneg; [lia|]. apply Z.pow_nonneg. lia.
  - right. exists (2 ^ p)%positive. split; [|reflexivity].
    change (0 <=? Z.neg p) with false. cbv iota.
    change (- Z.neg p) with (Z.pos p).
    now rewrite <- Pos2Z.inj_pow.
Qed.

Lemma trunc_close (s : bool) (m : positive) (e : Z) :
  let n := trunc_magnitude m e in
  (SF2Q (S754_finite s m e) - 1 < inject_Z (if s then - n else n)
   /\ inject_Z (if s then - n else n) < SF2Q (S754_finite s m e) + 1)%Q.
Proof.
  intros n; subst n.
  destruct (trunc_magnitude_cases m e) as [(n & Hn & -> & Hv)|(d & -> & Hv)];
    rewrite Hv.
  - apply Q_near_integer.
  - apply Q_near_quotient.
Qed.

Lemma trunc_toward_zero (s : bool) (m : positive) (e : Z) :
  let n := trunc_magnitude m e in
  toward_zero (SF2Q (S754_finite s m e)) (if s then - n else n).
Proof.
  intros n; subst n.
  destruct (trunc_magnitude_cases m e) as [(n & Hn & -> & Hv)|(d & -> & Hv)];
    rewrite Hv.
  - now apply Q_toward_zero_integer.
  - apply Q_toward_zero_quotient.
Qed.

Lemma int_of_float_finite (x : float) :
  is_finite x = true -> exists n, int_of_float x = Ok n.
Proof.
  unfold int_of_float, Prim2SF, is_finite.
  destruct (is_nan x); simpl; [discriminate|].
  destruct (is_infinity x); simpl; [discriminate|]. intros _.
  destruct (is_zero x); [eauto|].
  destruct (Z.frexp x) as [r ex].
  destruct (shr_fexp prec emax (Uint63Axioms.to_Z (normfr_mantissa r)) (ex - prec) loc_Exact) as [sh e'].
  destruct (shr_m sh); eauto.
Qed.

Lemma int_of_float_close (x : float) (n : Z) :
  int_of_float x = Ok n ->
  (float_value x - 1 < inject_Z n /\ inject_Z n < float_value x + 1)%Q
  /\ toward_zero (float_value x) n.
Proof.
  unfold int_of_float, float_value.
  destruct (Prim2SF x) as [sz|si| |s m e]; try discriminate;
    intros H; inversion H; subst.
  - unfold toward_zero, Qlt, Qle. simpl. lia.
  - split; [apply trunc_close | apply trunc_toward_zero].
Qed.

Lemma toward_zero_fits (v : Q) (n : Z) :
  toward_zero v n -> within_int v -> fits_int n = true.
Proof.
  intros [Hpos Hneg] [Hlow Hhigh].
  assert (Hn : -2147483648 - 1 < n < 2147483647 + 1).
  { destruct (Qlt_le_dec v 0) as [Hv|Hv].
    - destruct (Hneg (Qlt_le_weak _ _ Hv)) as [H1 H2].
      pose proof (Qlt_le_trans _ _ _ Hlow H1) as H3.
      revert H2 H3. unfold Qlt, Qle, Qminus, Qplus, Qopp, inject_Z.
      cbn [Qnum Qden]. lia.
    - destruct (Hpos Hv) as [H1 H2].
      pose proof (Qle_lt_trans _ _ _ H2 Hhigh) as H3.
      revert H1 H3. unfold Qlt, Qle, Qminus, Qplus, Qopp, inject_Z.
      cbn [Qnum Qden]. lia. }
  unfold fits_int. apply andb_true_intro. split; apply Z.leb_le; lia.
Qed.

(** ** The arithmetic of lines 131-134 *)

Lemma float_of_int_300000 : float_of_int 300000 = Ok 300000%float.
Proof. vm_compute. reflexivity. Qed.

Lemma mul_float_300000 (t : float) :
  mul (PyFloat t) (PyInt 300000) = Ok (PyFloat (t * 300000)).
Proof.
  unfold mul, as_number. rewrite float_of_int_300000. reflexivity.
Qed.

Lemma math_1_finite (func : float -> float) (x : float) :
  is_finite (func x) = true -> math_1 func x = Ok (func x).
Proof.
  unfold math_1, is_finite. intros H.
  destruct (is_nan (func x)); [discriminate|].
  destruct (is_infinity (func x)); [discriminate|].
  reflexivity.
Qed.

(** [float()] takes every scan angle from 0 to 359. *)
Lemma radians_in_range (a : Z) :
  0 <= a < 360 -> radians (PyInt a) = Ok (bearing a).
Proof.
  intros Ha.
  assert (Hall : forallb
                   (fun k => negb (is_infinity
                                     (SF2Prim (binary_normalize prec emax (Z.of_nat k) 0 false))))
                   (seq 0 360) = true) by (vm_compute; reflexivity).
  rewrite forallb_forall in Hall.
  specialize (Hall (Z.to_nat a)).
  rewrite Z2Nat.id in Hall by lia.
  assert (Hin : In (Z.to_nat a) (seq 0 360)) by (apply in_seq; lia).
  apply Hall in Hin. apply negb_true_iff in Hin.
  unfold radians, as_double, as_number, float_of_int, round_scaled, bearing.
  rewrite Hin. reflexivity.
Qed.

Section Geometry.

Variable m : libm.
Variables (kv ekv : list (string * value)) (rest : list value).
Variables (scanAngle : value) (time theta : float).

Hypothesis has_angle : assoc "scanAngle" kv = Some scanAngle.
Hypothesis has_echo : assoc "echoResponses" kv = Some (PyList (PyDict ekv :: rest)).
Hypothesis has_time : assoc "time" ekv = Some (PyFloat time).
Hypothesis angle_radians : radians scanAngle = Ok theta.
Hypothesis cos_finite : is_finite (cos m theta) = true.
Hypothesis sin_finite : is_finite (sin m theta) = true.

Lemma coordinates_of_report :
  coordinates m (PyDict kv)
  = Ok (scanAngle, (surface_x m (range_fraction time) theta,
                    surface_y m (range_fraction time) theta)).
Proof.
  unfold coordinates, getitem. rewrite has_angle, has_echo.
  cbn [bind getitem_0]. rewrite has_time. cbn [bind].
  rewrite mul_float_300000. cbn [bind truediv_2 as_number].
  rewrite angle_radians. cbn [bind].
  unfold math_cos, math_sin.
  rewrite (math_1_finite (cos m) theta cos_finite).
  rewrite (math_1_finite (sin m) theta sin_finite).
  reflexivity.
Qed.

Lemma computed_position_of_report :
  computed_position m (PyDict kv)
  = Ok (Some (scanAngle, (surface_x m (range_fraction time) theta,
                          surface_y m (range_fraction time) theta))).
Proof.
  unfold computed_position, dict_get. rewrite has_echo.
  cbn [bind truthy]. rewrite coordinates_of_report. reflexivity.
Qed.

Lemma process_message_of_report (self : RadarWidget) (ix iy : Z) :
  int_of_float (surface_x m (range_fraction time) theta) = Ok ix ->
  int_of_float (surface_y m (range_fraction time) theta) = Ok iy ->
  fits_int ix = true ->
  fits_int iy = true ->
  process_message m self (PyDict kv)
  = ({| angle := scanAngle; dot_position := mkQPoint ix iy; dot_visible := true |},
     [Update]).
Proof.
  intros Hx Hy Fx Fy. unfold process_message, process_message_try.
  rewrite computed_position_of_report. cbn [bind].
  rewrite Hx. cbn [bind]. rewrite Hy. cbn [bind].
  unfold QPoint_new. rewrite Fx, Fy. reflexivity.
Qed.

End Geometry.

Lemma dot_is_drawn (self : RadarWidget) :
  dot_visible self = true ->
  In (drawEllipse (point_x (dot_position self) - 3)
                  (point_y (dot_position self) - 3) 6 6)
     (draw_radar self).
Proof.
  intros H. unfold draw_radar, draw_dot. rewrite H.
  rewrite !in_app_iff. right. right. right. right. now left.
Qed.

Lemma process_message_no_echo (m : libm) (self : RadarWidget)
      (kv : list (string * value)) :
  assoc "echoResponses" kv = Some (PyList []) \/ assoc "echoResponses" kv = None ->
  computed_position m (PyDict kv) = Ok None
  /\ process_message m self (PyDict kv) = (self, []).
Proof.
  intros H. unfold process_message, process_message_try, computed_position, dict_get.
  destruct H as [H|H]; rewrite H; split; reflexivity.
Qed.

Lemma radians_int_inv (a : Z) (theta : float) :
  radians (PyInt a) = Ok theta -> theta = bearing a.
Proof.
  unfold radians, as_double, as_number, float_of_int, round_scaled, bearing.
  destruct (is_infinity _); simpl; intros H; inversion H; reflexivity.
Qed.

Lemma process_message_str_angle (m : libm) (self : RadarWidget)
      (kv ekv : list (string * value)) (rest : list value) (s : string) (t : float) :
  assoc "scanAngle" kv = Some (PyStr s) ->
  assoc "echoResponses" kv = Some (PyList (PyDict ekv :: rest)) ->
  assoc "time" ekv = Some (PyFloat t) ->
  process_message m self (PyDict kv)
  = (self, [Print "Error processing message: " (Some TypeError)]).
Proof.
  intros Ha He Ht.
  unfold process_message, process_message_try, computed_position, dict_get.
  rewrite He. cbn [bind truthy].
  unfold coordinates, getitem. rewrite Ha, He.
  cbn [bind getitem_0]. rewrite Ht. cbn [bind].
  rewrite mul_float_300000. reflexivity.
Qed.

(* ================================================================== *)
(** * What a message must look like *)
(* ================================================================== *)

(** C3, as the code has it.  The scan angle is not checked against a
    range: for every integer [a], 360 and the negative ones included,
    a message with a first echo is plotted at bearing [a] whenever its
    coordinates can be converted.  A message with echoes and no
    [scanAngle] ends in a [KeyError] and one whose [scanAngle] is a
    string in a [TypeError]; both are printed by [process_message] and
    nothing tells a malformed message from one out of range. *)
Theorem C3_scan_angle_is_not_range_checked :
  forall (m : libm) (self : RadarWidget) (kv ekv : list (string * value))
         (rest : list value) (a : Z) (s : string) (t theta : float) (ix iy : Z),
    assoc "echoResponses" kv = Some (PyList (PyDict ekv :: rest)) ->
    assoc "time" ekv = Some (PyFloat t) ->
    (assoc "scanAngle" kv = Some (PyInt a) ->
     radians (PyInt a) = Ok theta ->
     is_finite (cos m theta) = true ->
     is_finite (sin m theta) = true ->
     int_of_float (surface_x m (range_fraction t) theta) = Ok ix ->
     int_of_float (surface_y m (range_fraction t) theta) = Ok iy ->
     fits_int ix = true ->
     fits_int iy = true ->
     process_message m self (PyDict kv)
     = ({| angle := PyInt a; dot_position := mkQPoint ix iy; dot_visible := true |},
        [Update]))
    /\ (assoc "scanAngle" kv = None ->
        process_message m self (PyDict kv)
        = (self, [Print "Error processing message: "
                        (Some (KeyError (PyStr "scanAngle")))]))
    /\ (assoc "scanAngle" kv = Some (PyStr s) ->
        process_message m self (PyDict kv)
        = (self, [Print "Error processing message: " (Some TypeError)])).
Proof.
  intros m self kv ekv rest a s t theta ix iy He Ht.
  split; [|split].
  - intros Ha Hr Hc Hs Hx Hy Fx Fy.
    apply (@process_message_of_report m kv ekv rest (PyInt a) t theta); assumption.
  - intros Ha.
    apply (@process_message_no_scanAngle m self kv (PyList (PyDict ekv :: rest)));
      auto.
  - intros Ha.
    apply (@process_message_str_angle m self kv ekv rest s t); assumption.
Qed.

(** The angles 0, 359 and 360 with the echo of scenario A. *)
Lemma C3_witness :
  process_message libm_sample RadarWidget_init (scan_report 0 10 [echo_response ms1 0.5])
  = ({| angle := PyInt 0; dot_position := mkQPoint 262 150; dot_visible := true |},
     [Update])
  /\ process_message libm_sample RadarWidget_init
       (scan_report 359 10 [echo_response ms1 0.5])
     = ({| angle := PyInt 359; dot_position := mkQPoint 262 148; dot_visible := true |},
        [Update])
  /\ process_message libm_sample RadarWidget_init
       (scan_report 360 10 [echo_response ms1 0.5])
     = ({| angle := PyInt 360; dot_position := mkQPoint 262 149; dot_visible := true |},
        [Update]).
Proof.
  split; [|split].
  - apply (@C3_scan_angle_is_not_range_checked
             libm_sample RadarWidget_init
             [("scanAngle"%string, PyInt 0); ("pulseDuration"%string, PyInt 10);
              ("echoResponses"%string, PyList [echo_response ms1 0.5])]
             [("time"%string, PyFloat ms1); ("power"%string, PyFloat 0.5)]
             [] 0 EmptyString ms1 (bearing 0) 262 150);
      vm_compute; reflexivity.
  - apply (@C3_scan_angle_is_not_range_checked
             libm_sample RadarWidget_init
             [("scanAngle"%string, PyInt 359); ("pulseDuration"%string, PyInt 10);
              ("echoResponses"%string, PyList [echo_response ms1 0.5])]
             [("time"%string, PyFloat ms1); ("power"%string, PyFloat 0.5)]
             [] 359 EmptyString ms1 (bearing 359) 262 148);
      vm_compute; reflexivity.
  - apply (@C3_scan_angle_is_not_range_checked
             libm_sample RadarWidget_init
             [("scanAngle"%string, PyInt 360); ("pulseDuration"%string, PyInt 10);
              ("echoResponses"%string, PyList [echo_response ms1 0.5])]
             [("time"%string, PyFloat ms1); ("power"%string, PyFloat 0.5)]
             [] 360 EmptyString ms1 (bearing 360) 262 149);
      vm_compute; reflexivity.
Defined.

(** C3 fails at the boundary it names: a message with [scanAngle] 360
    is not rejected, it moves the beam to 360 and plots the echo. *)
Lemma C3_counterexample :
  process_message libm_sample RadarWidget_init (scan_report 360 10 [echo_response ms1 0.5])
  = ({| angle := PyInt 360; dot_position := mkQPoint 262 149; dot_visible := true |},
     [Update]).
Proof. vm_compute. reflexivity. Qed.

(** C4, as the code has it.  The worker emits [message_received] once
    for every frame that is a JSON object, but [process_message]
    passes nothing to the widget when [echoResponses] is empty or
    absent: angle, position and marker stay as they were and no repaint
    is asked for.  When the message has a first echo whose coordinates
    can be converted, the widget is updated once, with the scan angle. *)
Theorem C4_no_echo_no_update :
  forall (m : libm) (self : RadarWidget) (kv : list (string * value)),
    resume receiving (Received (Document (PyDict kv)))
    = Some (receiving, [Emit (message_received (PyDict kv))])
    /\ (assoc "echoResponses" kv = Some (PyList []) \/ assoc "echoResponses" kv = None ->
        process_message m self (PyDict kv) = (self, []))
    /\ (forall ekv rest scanAngle t theta ix iy,
           assoc "scanAngle" kv = Some scanAngle ->
           assoc "echoResponses" kv = Some (PyList (PyDict ekv :: rest)) ->
           assoc "time" ekv = Some (PyFloat t) ->
           radians scanAngle = Ok theta ->
           is_finite (cos m theta) = true ->
           is_finite (sin m theta) = true ->
           int_of_float (surface_x m (range_fraction t) theta) = Ok ix ->
           int_of_float (surface_y m (range_fraction t) theta) = Ok iy ->
           fits_int ix = true ->
           fits_int iy = true ->
           process_message m self (PyDict kv)
           = ({| angle := scanAngle; dot_position := mkQPoint ix iy;
                 dot_visible := true |}, [Update])).
Proof.
  intros m self kv.
  split; [reflexivity|]. split.
  - intros H. apply (process_message_no_echo m self kv H).
  - intros ekv rest scanAngle t theta ix iy Ha He Ht Hr Hc Hs Hx Hy Fx Fy.
    apply (@process_message_of_report m kv ekv rest scanAngle t theta); assumption.
Qed.

Lemma C4_witness :
  process_message libm_sample RadarWidget_init scenario_B = (RadarWidget_init, [])
  /\ process_message libm_sample RadarWidget_init scenario_A
     = ({| angle := PyInt 0; dot_position := mkQPoint 262 150; dot_visible := true |},
        [Update]).
Proof.
  destruct (@C4_no_echo_no_update libm_sample RadarWidget_init
              [("scanAngle"%string, PyInt 90); ("pulseDuration"%string, PyInt 5);
               ("echoResponses"%string, PyList [])]) as (_ & Hempty & _).
  destruct (@C4_no_echo_no_update libm_sample RadarWidget_init
              [("scanAngle"%string, PyInt 0); ("pulseDuration"%string, PyInt 10);
               ("echoResponses"%string, PyList [echo_response ms1 0.5])])
    as (_ & _ & Hecho).
  split.
  - apply Hempty. left. reflexivity.
  - apply (Hecho [("time"%string, PyFloat ms1); ("power"%string, PyFloat 0.5)]
                 [] (PyInt 0) ms1 0%float 262 150);
      vm_compute; reflexivity.
Defined.

(** C4 fails on scenario B: the message with angle 90 and no echo
    leaves the widget at its initial angle 0 and asks for no repaint. *)
Lemma C4_counterexample :
  process_message libm_sample RadarWidget_init scenario_B = (RadarWidget_init, [])
  /\ angle RadarWidget_init = PyInt 0.
Proof. split; reflexivity. Qed.

(* ================================================================== *)
(** * From range and bearing to the display *)
(* ================================================================== *)

(** C5, as the code has it.  For a message with an integer scan angle
    [a] and a first echo of time [t], the coordinates computed in
    binary64 are [x = r * 150 * cos(theta) + 150] and
    [y = r * 150 * sin(theta) + 150] with [r = t * 300000 / 2 / 200]
    and [theta = float(a) * (pi / 180)]; the position given to the
    widget is [(int(x), int(y))].  Scenario A computes (262.5, 150.0)
    and publishes (262, 150), with any libm that has [cos(0) = 1] and
    [sin(0) = 0]. *)
Theorem C5_published_position_is_truncated_formula :
  forall (m : libm) (self : RadarWidget) (kv ekv : list (string * value))
         (rest : list value) (a : Z) (t theta : float) (ix iy : Z),
    assoc "scanAngle" kv = Some (PyInt a) ->
    assoc "echoResponses" kv = Some (PyList (PyDict ekv :: rest)) ->
    assoc "time" ekv = Some (PyFloat t) ->
    radians (PyInt a) = Ok theta ->
    is_finite (cos m theta) = true ->
    is_finite (sin m theta) = true ->
    let r := (t * 300000 / 2 / 200)%float in
    let x := (r * 150 * cos m theta + 150)%float in
    let y := (r * 150 * sin m theta + 150)%float in
    theta = (SF2Prim (binary_normalize prec emax a 0 false) * (pi / 180))%float
    /\ computed_position m (PyDict kv) = Ok (Some (PyInt a, (x, y)))
    /\ (int_of_float x = Ok ix -> int_of_float y = Ok iy ->
        fits_int ix = true -> fits_int iy = true ->
        process_message m self (PyDict kv)
        = ({| angle := PyInt a; dot_position := mkQPoint ix iy; dot_visible := true |},
           [Update]))
    /\ (cos m 0 = 1%float -> sin m 0 = 0%float ->
        computed_position m scenario_A = Ok (Some (PyInt 0, (262.5, 150)%float))
        /\ process_message m self scenario_A
           = ({| angle := PyInt 0; dot_position := mkQPoint 262 150;
                 dot_visible := true |}, [Update])).
Proof.
  intros m self kv ekv rest a t theta ix iy Ha He Ht Hr Hc Hs r x y.
  split; [exact (radians_int_inv a Hr)|].
  split; [apply (@computed_position_of_report m kv ekv rest (PyInt a) t theta);
          assumption|].
  split; [intros Hx Hy Fx Fy;
          apply (@process_message_of_report m kv ekv rest (PyInt a) t theta);
          assumption|].
  intros Hcos Hsin.
  assert (Hc0 : is_finite (cos m 0) = true) by (rewrite Hcos; reflexivity).
  assert (Hs0 : is_finite (sin m 0) = true) by (rewrite Hsin; reflexivity).
  assert (Hxy : surface_x m (range_fraction ms1) 0 = 262.5%float
                /\ surface_y m (range_fraction ms1) 0 = 150%float).
  { unfold surface_x, surface_y. rewrite Hcos, Hsin. split; vm_compute; reflexivity. }
  destruct Hxy as [HxA HyA].
  split.
  - rewrite <- HxA, <- HyA.
    apply (@computed_position_of_report m _
             [("time"%string, PyFloat ms1); ("power"%string, PyFloat 0.5)]
             [] (PyInt 0) ms1 0%float); auto; reflexivity.
  - apply (@process_message_of_report m _
             [("time"%string, PyFloat ms1); ("power"%string, PyFloat 0.5)]
             [] (PyInt 0) ms1 0%float); auto; try reflexivity.
    + rewrite HxA. vm_compute. reflexivity.
    + rewrite HyA. vm_compute. reflexivity.
Qed.

Lemma C5_witness :
  computed_position libm_sample scenario_A = Ok (Some (PyInt 0, (262.5, 150)%float))
  /\ process_message libm_sample RadarWidget_init scenario_A
     = ({| angle := PyInt 0; dot_position := mkQPoint 262 150; dot_visible := true |},
        [Update]).
Proof.
  destruct (@C5_published_position_is_truncated_formula
              libm_sample RadarWidget_init
              [("scanAngle"%string, PyInt 0); ("pulseDuration"%string, PyInt 10);
               ("echoResponses"%string, PyList [echo_response ms1 0.5])]
              [("time"%string, PyFloat ms1); ("power"%string, PyFloat 0.5)]
              [] 0 ms1 0%float 262 150) as (_ & Hxy & Hpub & _);
    try (vm_compute; reflexivity).
  split; [exact Hxy | apply Hpub; vm_compute; reflexivity].
Defined.

(** C5 fails on its own example: what scenario A publishes is
    (262, 150), half a unit away from the (262.5, 150) it computes. *)
Lemma C5_counterexample :
  dot_position (fst (process_message libm_sample RadarWidget_init scenario_A))
  = mkQPoint 262 150
  /\ computed_position libm_sample scenario_A
     = Ok (Some (PyInt 0, (262.5, 150)%float))
  /\ (float_value 262.5 - inject_Z 262 == 1 # 2)%Q.
Proof. repeat split; vm_compute; reflexivity. Qed.

Lemma process_message_finite (m : libm) (self : RadarWidget)
      (json_object scanAngle : value) (x y : float) :
  computed_position m json_object = Ok (Some (scanAngle, (x, y))) ->
  is_finite x = true ->
  is_finite y = true ->
  within_int (float_value x) ->
  within_int (float_value y) ->
  exists ix iy : Z,
    int_of_float x = Ok ix /\ int_of_float y = Ok iy
    /\ process_message m self json_object
       = ({| angle := scanAngle; dot_position := mkQPoint ix iy;
             dot_visible := true |}, [Update]).
Proof.
  intros Hpos Hfx Hfy Hwx Hwy.
  destruct (int_of_float_finite x Hfx) as [ix Hx].
  destruct (int_of_float_finite y Hfy) as [iy Hy].
  exists ix, iy. split; [exact Hx|]. split; [exact Hy|].
  destruct (int_of_float_close x Hx) as [_ Htx].
  destruct (int_of_float_close y Hy) as [_ Hty].
  unfold process_message, process_message_try.
  rewrite Hpos. cbn [bind]. rewrite Hx. cbn [bind]. rewrite Hy. cbn [bind].
  unfold QPoint_new.
  rewrite (toward_zero_fits Htx Hwx), (toward_zero_fits Hty Hwy). reflexivity.
Qed.

(** The conversion to [int] is where a computed position can still be
    lost: an echo of 1e308 seconds has the coordinates (inf, nan), and
    [int(x)] raises. *)
Lemma overflowing_echo_is_reported :
  computed_position libm_sample (scan_report 0 10 [echo_response huge 0.5])
  = Ok (Some (PyInt 0, (infinity, nan)))
  /\ process_message libm_sample RadarWidget_init
       (scan_report 0 10 [echo_response huge 0.5])
     = (RadarWidget_init, [Print "Error processing message: " (Some OverflowError)]).
Proof. split; vm_compute; reflexivity. Qed.

(** C6.  For a report with a scan angle from 0 to 359 and at least one
    echo, whose first echo has a float time, lines 130-134 compute a
    position, with any libm that is finite at the bearing, and the
    widget receives it when its coordinates are finite and within the
    range of a C [int]; for a report with no echo nothing is computed
    and the widget is left alone. *)
Theorem C6_position_iff_echo :
  forall (m : libm) (self : RadarWidget) (kv ekv : list (string * value))
         (rest : list value) (a : Z) (t : float),
    0 <= a < 360 ->
    assoc "scanAngle" kv = Some (PyInt a) ->
    assoc "time" ekv = Some (PyFloat t) ->
    is_finite (cos m (bearing a)) = true ->
    is_finite (sin m (bearing a)) = true ->
    let x := surface_x m (range_fraction t) (bearing a) in
    let y := surface_y m (range_fraction t) (bearing a) in
    (assoc "echoResponses" kv = Some (PyList (PyDict ekv :: rest)) ->
     computed_position m (PyDict kv) = Ok (Some (PyInt a, (x, y)))
     /\ (is_finite x = true -> is_finite y = true ->
         within_int (float_value x) -> within_int (float_value y) ->
         exists ix iy : Z,
           process_message m self (PyDict kv)
           = ({| angle := PyInt a; dot_position := mkQPoint ix iy;
                 dot_visible := true |}, [Update])))
    /\ (assoc "echoResponses" kv = Some (PyList []) ->
        computed_position m (PyDict kv) = Ok None
        /\ process_message m self (PyDict kv) = (self, [])).
Proof.
  intros m self kv ekv rest a t Hrange Ha Ht Hc Hs x y. split.
  - intros He.
    assert (Hpos : computed_position m (PyDict kv) = Ok (Some (PyInt a, (x, y)))).
    { apply (@computed_position_of_report m kv ekv rest (PyInt a) t (bearing a)); auto.
      apply radians_in_range; assumption. }
    split; [exact Hpos|].
    intros Hfx Hfy Hwx Hwy.
    destruct (process_message_finite m self (PyDict kv) Hpos Hfx Hfy Hwx Hwy)
      as (ix & iy & _ & _ & H).
    exists ix, iy. exact H.
  - intros He. apply (@process_message_no_echo m self kv). now left.
Qed.

Lemma C6_witness :
  computed_position libm_sample scenario_A = Ok (Some (PyInt 0, (262.5, 150)%float))
  /\ computed_position libm_sample (scan_report 0 5 []) = Ok None.
Proof.
  split.
  - apply (@C6_position_iff_echo libm_sample RadarWidget_init
             [("scanAngle"%string, PyInt 0); ("pulseDuration"%string, PyInt 10);
              ("echoResponses"%string, PyList [echo_response ms1 0.5])]
             [("time"%string, PyFloat ms1); ("power"%string, PyFloat 0.5)]
             [] 0 ms1); try lia; reflexivity.
  - apply (@C6_position_iff_echo libm_sample RadarWidget_init
             [("scanAngle"%string, PyInt 0); ("pulseDuration"%string, PyInt 5);
              ("echoResponses"%string, PyList [])]
             [("time"%string, PyFloat ms1)]
             [] 0 ms1); try lia; reflexivity.
Defined.

(** C7.  Two reports with the same scan angle and the same first echo
    yield the same position and the same widget, whatever echoes follow
    the first in either of them. *)
Theorem C7_only_first_echo :
  forall (m : libm) (self : RadarWidget) (kv1 kv2 : list (string * value))
         (first : value) (rest1 rest2 : list value),
    assoc "scanAngle" kv1 = assoc "scanAngle" kv2 ->
    assoc "echoResponses" kv1 = Some (PyList (first :: rest1)) ->
    assoc "echoResponses" kv2 = Some (PyList (first :: rest2)) ->
    computed_position m (PyDict kv1) = computed_position m (PyDict kv2)
    /\ process_message m self (PyDict kv1) = process_message m self (PyDict kv2).
Proof.
  intros m self kv1 kv2 first rest1 rest2 Ha H1 H2.
  assert (Heq : computed_position m (PyDict kv1) = computed_position m (PyDict kv2)).
  { unfold computed_position, coordinates, dict_get, getitem.
    rewrite Ha, H1, H2. reflexivity. }
  split; [exact Heq|].
  unfold process_message, process_message_try. rewrite Heq. reflexivity.
Qed.

Lemma C7_witness :
  process_message libm_sample RadarWidget_init
    (scan_report 0 10 [echo_response ms1 0.5; echo_response ms2 0.25; PyNone])
  = process_message libm_sample RadarWidget_init scenario_A.
Proof.
  apply (@C7_only_first_echo libm_sample RadarWidget_init
           [("scanAngle"%string, PyInt 0); ("pulseDuration"%string, PyInt 10);
            ("echoResponses"%string,
             PyList [echo_response ms1 0.5; echo_response ms2 0.25; PyNone])]
           [("scanAngle"%string, PyInt 0); ("pulseDuration"%string, PyInt 10);
            ("echoResponses"%string, PyList [echo_response ms1 0.5])]
           (echo_response ms1 0.5) [echo_response ms2 0.25; PyNone] []);
    reflexivity.
Defined.

(** C8.  An echo whose range fraction [r] is above 1 is handled like
    any other: the coordinates are [r * 150 * cos(theta) + 150] and
    [r * 150 * sin(theta) + 150] with that [r], nothing clamps them,
    and the marker is drawn around their truncations. *)
Theorem C8_beyond_range_is_not_clamped :
  forall (m : libm) (self : RadarWidget) (kv ekv : list (string * value))
         (rest : list value) (a : Z) (t theta : float) (ix iy : Z),
    assoc "scanAngle" kv = Some (PyInt a) ->
    assoc "echoResponses" kv = Some (PyList (PyDict ekv :: rest)) ->
    assoc "time" ekv = Some (PyFloat t) ->
    radians (PyInt a) = Ok theta ->
    is_finite (cos m theta) = true ->
    is_finite (sin m theta) = true ->
    let r := (t * 300000 / 2 / 200)%float in
    let x := (r * 150 * cos m theta + 150)%float in
    let y := (r * 150 * sin m theta + 150)%float in
    (1 <? r)%float = true ->
    computed_position m (PyDict kv) = Ok (Some (PyInt a, (x, y)))
    /\ (int_of_float x = Ok ix -> int_of_float y = Ok iy ->
        fits_int ix = true -> fits_int iy = true ->
        dot_position (fst (process_message m self (PyDict kv))) = mkQPoint ix iy
        /\ In (drawEllipse (ix - 3) (iy - 3) 6 6)
              (draw_radar (fst (process_message m self (PyDict kv))))).
Proof.
  intros m self kv ekv rest a t theta ix iy Ha He Ht Hr Hc Hs r x y Hbeyond.
  split.
  - apply (@computed_position_of_report m kv ekv rest (PyInt a) t theta); assumption.
  - intros Hx Hy Fx Fy.
    rewrite (@process_message_of_report m kv ekv rest (PyInt a) t theta
               Ha He Ht Hr Hc Hs self ix iy Hx Hy Fx Fy).
    split; [reflexivity|].
    apply (dot_is_drawn
             {| angle := PyInt a; dot_position := mkQPoint ix iy; dot_visible := true |}).
    reflexivity.
Qed.

(** An echo at three halves of the range, straight ahead: it is plotted
    at x = 375, to the right of the 300 by 300 widget. *)
Lemma C8_witness :
  computed_position libm_sample (scan_report 0 10 [echo_response ms2 0.5])
  = Ok (Some (PyInt 0, (375, 150)%float))
  /\ dot_position (fst (process_message libm_sample RadarWidget_init
                          (scan_report 0 10 [echo_response ms2 0.5])))
     = mkQPoint 375 150.
Proof.
  destruct (@C8_beyond_range_is_not_clamped
              libm_sample RadarWidget_init
              [("scanAngle"%string, PyInt 0); ("pulseDuration"%string, PyInt 10);
               ("echoResponses"%string, PyList [echo_response ms2 0.5])]
              [("time"%string, PyFloat ms2); ("power"%string, PyFloat 0.5)]
              [] 0 ms2 0%float 375 150) as (Hxy & Hpub);
    try (vm_compute; reflexivity).
  split; [exact Hxy | apply Hpub; vm_compute; reflexivity].
Defined.

(** C9.  When a position has been computed and its coordinates are
    finite and within the range of a C [int], the widget receives
    [QPoint(int(x), int(y))]: each coordinate is the truncation of the
    float towards zero, less than one unit away from it. *)
Theorem C9_widget_gets_truncated_coordinates :
  forall (m : libm) (self : RadarWidget) (json_object scanAngle : value)
         (x y : float),
    computed_position m json_object = Ok (Some (scanAngle, (x, y))) ->
    is_finite x = true ->
    is_finite y = true ->
    within_int (float_value x) ->
    within_int (float_value y) ->
    exists ix iy : Z,
      int_of_float x = Ok ix /\ int_of_float y = Ok iy
      /\ process_message m self json_object
         = ({| angle := scanAngle; dot_position := mkQPoint ix iy;
               dot_visible := true |}, [Update])
      /\ (float_value x - 1 < inject_Z ix /\ inject_Z ix < float_value x + 1)%Q
      /\ (float_value y - 1 < inject_Z iy /\ inject_Z iy < float_value y + 1)%Q
      /\ toward_zero (float_value x) ix
      /\ toward_zero (float_value y) iy.
Proof.
  intros m self json_object scanAngle x y Hpos Hfx Hfy Hwx Hwy.
  destruct (process_message_finite m self json_object Hpos Hfx Hfy Hwx Hwy)
    as (ix & iy & Hx & Hy & Hmsg).
  exists ix, iy.
  destruct (int_of_float_close x Hx) as [Hcx Htx].
  destruct (int_of_float_close y Hy) as [Hcy Hty].
  repeat (split; [assumption|]). assumption.
Qed.

Lemma C9_witness :
  exists ix iy : Z,
    int_of_float 262.5 = Ok ix /\ int_of_float 150 = Ok iy
    /\ process_message libm_sample RadarWidget_init scenario_A
       = ({| angle := PyInt 0; dot_position := mkQPoint ix iy;
             dot_visible := true |}, [Update])
    /\ (float_value 262.5 - 1 < inject_Z ix /\ inject_Z ix < float_value 262.5 + 1)%Q
    /\ (float_value 150 - 1 < inject_Z iy /\ inject_Z iy < float_value 150 + 1)%Q
    /\ toward_zero (float_value 262.5) ix
    /\ toward_zero (float_value 150) iy.
Proof.
  apply (@C9_widget_gets_truncated_coordinates
           libm_sample RadarWidget_init scenario_A (PyInt 0) 262.5%float 150%float);
    try (vm_compute; reflexivity);
    split; vm_compute; reflexivity.
Defined.

(* ================================================================== *)
(** * The marker *)
(* ================================================================== *)

Lemma process_message_keeps_visible (m : libm) (self : RadarWidget) (v : value) :
  dot_visible self = true ->
  dot_visible (fst (process_message m self v)) = true.
Proof.
  intros H. unfold process_message, process_message_try.
  destruct (computed_position m v) as [[[a [x y]]|]|e]; cbn [bind fst]; auto.
  destruct (int_of_float x); cbn [bind fst]; auto.
  destruct (int_of_float y); cbn [bind fst]; auto.
  destruct (QPoint_new _ _); cbn [bind fst]; auto.
Qed.

Lemma slot_keeps_visible (m : libm) (self : RadarWidget) (s : signal) :
  dot_visible self = true ->
  dot_visible (fst (slot m self s)) = true.
Proof.
  intros H. destruct s as [v|status]; simpl.
  - now apply process_message_keeps_visible.
  - unfold handle_connection. destruct status; exact H.
Qed.

Lemma deliver_keeps_visible (m : libm) (signals : list signal) :
  forall self,
    dot_visible self = true ->
    dot_visible (fst (deliver m self signals)) = true.
Proof.
  induction signals as [|s rest IH]; intros self H.
  - exact H.
  - simpl.
    pose proof (slot_keeps_visible m self s H) as H1.
    destruct (slot m self s) as [self1 out1]. simpl in H1.
    specialize (IH self1 H1).
    destruct (deliver m self1 rest) as [self2 out2]. exact IH.
Qed.

Lemma process_message_plots_or_leaves (m : libm) (self : RadarWidget) (v : value) :
  (snd (process_message m self v) = [Update]
   /\ dot_visible (fst (process_message m self v)) = true)
  \/ (snd (process_message m self v) <> [Update]
      /\ fst (process_message m self v) = self).
Proof.
  unfold process_message, process_message_try.
  destruct (computed_position m v) as [[[a [x y]]|]|e]; cbn [bind fst snd];
    try (right; split; [discriminate | reflexivity]).
  destruct (int_of_float x); cbn [bind fst snd];
    try (right; split; [discriminate | reflexivity]).
  destruct (int_of_float y); cbn [bind fst snd];
    try (right; split; [discriminate | reflexivity]).
  destruct (QPoint_new _ _); cbn [bind fst snd];
    try (right; split; [discriminate | reflexivity]).
  left. split; reflexivity.
Qed.

Lemma paintEvent_visible (self : RadarWidget) :
  dot_visible self = true ->
  snd (paintEvent self)
  = draw_background ++ draw_circles ++ draw_beam self
    ++ [setBrush (mkQColor 255 0 0 255);
        drawEllipse (point_x (dot_position self) - 3)
                    (point_y (dot_position self) - 3) 6 6].
Proof.
  intros H. cbn [paintEvent snd]. unfold draw_radar, draw_dot. now rewrite H.
Qed.

(** C10, as the code has it.  A report is plotted when
    [process_message] reaches [update_radar_data] and asks for the
    repaint; it does when the position computed from the first echo is
    finite and within the range of a C [int], and an echo alone is not
    enough.  Once a report has been plotted the marker is visible, and
    it stays visible whatever signals the window handles afterwards,
    reports without echo, reports that fail and changes of the
    connection among them; [paintEvent] leaves the widget as it is and
    paints the marker last, in red, at the position held.  A report
    that is not plotted leaves the widget, and so the flag, as it
    was. *)
Theorem C10_marker_stays_once_plotted :
  forall (m : libm) (self : RadarWidget) (json_object : value)
         (later : list signal),
    let shown := fst (process_message m self json_object) in
    let final := fst (deliver m shown later) in
    (forall (scanAngle : value) (x y : float),
        computed_position m json_object = Ok (Some (scanAngle, (x, y))) ->
        is_finite x = true ->
        is_finite y = true ->
        within_int (float_value x) ->
        within_int (float_value y) ->
        snd (process_message m self json_object) = [Update])
    /\ (snd (process_message m self json_object) = [Update] ->
        dot_visible shown = true
        /\ dot_visible final = true
        /\ fst (paintEvent final) = final
        /\ snd (paintEvent final)
           = draw_background ++ draw_circles ++ draw_beam final
             ++ [setBrush (mkQColor 255 0 0 255);
                 drawEllipse (point_x (dot_position final) - 3)
                             (point_y (dot_position final) - 3) 6 6])
    /\ (snd (process_message m self json_object) <> [Update] ->
        shown = self).
Proof.
  intros m self json_object later shown final.
  split; [|split].
  - intros scanAngle x y Hpos Hfx Hfy Hwx Hwy.
    destruct (process_message_finite m self json_object Hpos Hfx Hfy Hwx Hwy)
      as (ix & iy & _ & _ & H).
    rewrite H. reflexivity.
  - intros Hplot.
    assert (Hshown : dot_visible shown = true).
    { destruct (process_message_plots_or_leaves m self json_object)
        as [[_ H]|[H _]]; [exact H | contradiction]. }
    assert (Hfinal : dot_visible final = true)
      by (apply deliver_keeps_visible; exact Hshown).
    split; [exact Hshown|]. split; [exact Hfinal|]. split; [reflexivity|].
    apply paintEvent_visible. exact Hfinal.
  - intros Hnot.
    destruct (process_message_plots_or_leaves m self json_object)
      as [[H _]|[_ H]]; [contradiction | exact H].
Qed.

Lemma C10_witness :
  dot_visible
    (fst (deliver libm_sample
            (fst (process_message libm_sample RadarWidget_init scenario_A))
            [message_received scenario_B; message_received (PyDict []);
             connection_status false;
             message_received (scan_report 0 10 [echo_response huge 0.5]);
             message_received (PyDict [("echoResponses"%string,
                                        PyList [echo_response ms1 0.5])]);
             connection_status true]))
  = true
  /\ snd (paintEvent
            (fst (deliver libm_sample
                    (fst (process_message libm_sample RadarWidget_init scenario_A))
                    [message_received scenario_B; message_received (PyDict []);
                     connection_status false;
                     message_received (scan_report 0 10 [echo_response huge 0.5]);
                     message_received (PyDict [("echoResponses"%string,
                                                PyList [echo_response ms1 0.5])]);
                     connection_status true])))
     = draw_background ++ draw_circles
       ++ draw_beam {| angle := PyInt 0; dot_position := mkQPoint 262 150;
                       dot_visible := true |}
       ++ [setBrush (mkQColor 255 0 0 255); drawEllipse 259 147 6 6].
Proof.
  destruct (@C10_marker_stays_once_plotted
              libm_sample RadarWidget_init scenario_A
              [message_received scenario_B; message_received (PyDict []);
               connection_status false;
               message_received (scan_report 0 10 [echo_response huge 0.5]);
               message_received (PyDict [("echoResponses"%string,
                                          PyList [echo_response ms1 0.5])]);
               connection_status true]) as (Hplot & Hstays & _).
  assert (H : snd (process_message libm_sample RadarWidget_init scenario_A) = [Update]).
  { apply (Hplot (PyInt 0) 262.5%float 150%float);
      try (vm_compute; reflexivity); split; vm_compute; reflexivity. }
  destruct (Hstays H) as (_ & Hvisible & _ & Hpaint).
  split; [exact Hvisible|].
  rewrite Hpaint. vm_compute. reflexivity.
Defined.

(** C10 fails as stated: a report can have an echo and not be plotted.
    For an echo of 1e308 seconds [int(x)] raises, for one of 20000
    seconds [x] is 2250000150 and [QPoint] raises; both reports are
    printed as errors, and after them the marker of a new widget is
    still hidden and [paintEvent] paints none. *)
Lemma C10_counterexample :
  computed_position libm_sample (scan_report 0 10 [echo_response 20000 0.5])
  = Ok (Some (PyInt 0, (2250000150, 150)%float))
  /\ deliver libm_sample RadarWidget_init
       [message_received (scan_report 0 10 [echo_response huge 0.5]);
        message_received (scan_report 0 10 [echo_response 20000 0.5])]
     = (RadarWidget_init,
        [Print "Error processing message: " (Some OverflowError);
         Print "Error processing message: " (Some OverflowError)])
  /\ dot_visible RadarWidget_init = false
  /\ existsb is_marker (snd (paintEvent RadarWidget_init)) = false.
Proof. repeat split; vm_compute; reflexivity. Qed.

(* ================================================================== *)
(** * Further properties of the connection loop *)
(* ================================================================== *)

Lemma messages_app (a b : list action) :
  messages (a ++ b) = messages a ++ messages b.
Proof.
  induction a as [|x a IH]; [reflexivity|].
  destruct x as [u| |[v|status]|e|seconds]; simpl; now rewrite IH.
Qed.

Lemma count_app (A : Type) (p : A -> bool) (a b : list A) :
  count p (a ++ b) = (count p a + count p b)%nat.
Proof. unfold count. now rewrite filter_app, length_app. Qed.

Lemma bracketed_app (a b : list action) :
  forall open,
    bracketed open (a ++ b)
    = match bracketed open a with
      | Some open' => bracketed open' b
      | None => None
      end.
Proof.
  induction a as [|x a IH]; intros open; [reflexivity|].
  destruct x as [u| |[v|[|]]|e|seconds]; destruct open; simpl;
    try reflexivity; apply IH.
Qed.

Lemma step_messages (self self' : WebSocketWorker) (i : input) (out : list action) :
  step self i = Some (self', out) -> messages out = documents [i].
Proof. intros H. worker_cases self i H; reflexivity. Qed.

Lemma run_messages (inputs : list input) :
  forall self self' out,
    run self inputs = Some (self', out) -> messages out = documents inputs.
Proof.
  induction inputs as [|i rest IH]; intros self self' out Hrun.
  - inversion Hrun; reflexivity.
  - rewrite run_cons in Hrun.
    destruct (step self i) as [[self1 out1]|] eqn:Hstep; [|discriminate].
    destruct (run self1 rest) as [[self2 out2]|] eqn:Hrest; [|discriminate].
    inversion Hrun; subst.
    rewrite messages_app, (step_messages _ _ Hstep), (IH _ _ _ Hrest).
    destruct i as [[ |e|[v|raw]|e| ]|]; reflexivity.
Qed.

(** X1.  The [message_received] signals of a run carry exactly the
    JSON documents that [recv()] returned, each once and in the order
    of their arrival, whatever failures, reconnections and calls of
    [stop] lie in between; a frame that is not JSON is never emitted. *)
Theorem X1_documents_are_forwarded_in_order :
  forall (inputs : list input) (self self' : WebSocketWorker) (out : list action),
    objects_only inputs = true ->
    run self inputs = Some (self', out) ->
    messages out = documents inputs.
Proof. intros inputs self self' out _ H. exact (run_messages _ _ H). Qed.

Lemma X1_witness :
  messages
    [Emit (connection_status true); Emit (message_received scenario_A); Close;
     PrintError JSONDecodeError; Emit (connection_status false); Sleep 5;
     Connect uri; Emit (connection_status true); Emit (message_received scenario_B);
     Emit (message_received scenario_A); Close]
  = [scenario_A; scenario_B; scenario_A].
Proof.
  apply (@X1_documents_are_forwarded_in_order
           [Resume Connected; Resume (Received (Document scenario_A));
            Resume (Received (Garbage "{")); Resume Woken; Resume Connected;
            Resume (Received (Document scenario_B)); Stop;
            Resume (Received (Document scenario_A))]
           connecting returned); reflexivity.
Defined.

Lemma step_bracketed (self self' : WebSocketWorker) (i : input) (out : list action) :
  step self i = Some (self', out) ->
  bracketed (in_session self) out = Some (in_session self').
Proof. intros H. worker_cases self i H; reflexivity. Qed.

Lemma run_bracketed (inputs : list input) :
  forall self self' out,
    run self inputs = Some (self', out) ->
    bracketed (in_session self) out = Some (in_session self').
Proof.
  induction inputs as [|i rest IH]; intros self self' out Hrun.
  - inversion Hrun; reflexivity.
  - rewrite run_cons in Hrun.
    destruct (step self i) as [[self1 out1]|] eqn:Hstep; [|discriminate].
    destruct (run self1 rest) as [[self2 out2]|] eqn:Hrest; [|discriminate].
    inversion Hrun; subst.
    rewrite bracketed_app, (step_bracketed _ _ Hstep). exact (IH _ _ _ Hrest).
Qed.

(** X2.  Sessions never overlap and never leak: in every run from the
    start of the worker, [connection_status(True)] is emitted only when
    no session is open, messages are emitted and [Close] happens only
    inside a session, and connecting, printing an error, reporting a
    disconnection and sleeping happen only after the session has been
    left; a session is open at the end exactly when the worker waits in
    [recv()]. *)
Theorem X2_sessions_are_bracketed :
  forall (inputs : list input) (self : WebSocketWorker) (out : list action),
    objects_only inputs = true ->
    run (fst (start_websocket WebSocketWorker_init)) inputs = Some (self, out) ->
    bracketed false (snd (start_websocket WebSocketWorker_init) ++ out)
    = Some (in_session self).
Proof.
  intros inputs self out _ H.
  change (snd (start_websocket WebSocketWorker_init) ++ out) with (Connect uri :: out).
  apply run_bracketed in H. exact H.
Qed.

Lemma X2_witness :
  bracketed false
    [Connect uri; Emit (connection_status true); Emit (message_received scenario_B);
     Close; Connect uri; PrintError OSError; Emit (connection_status false); Sleep 5;
     Connect uri; Emit (connection_status true)]
  = Some true.
Proof.
  apply (@X2_sessions_are_bracketed
           [Resume Connected; Resume (Received (Document scenario_B));
            Resume (RecvRaised ConnectionClosed); Resume (ConnectRaised OSError);
            Resume Woken; Resume Connected]
           receiving); reflexivity.
Defined.

Lemma step_counts (self self' : WebSocketWorker) (i : input) (out : list action) :
  step self i = Some (self', out) ->
  count is_print out = count is_failure [i]
  /\ count (is_status false) out = count is_failure [i]
  /\ count is_sleep_5 out = count is_failure [i]
  /\ count (is_status true) out = count is_established [i].
Proof. intros H. worker_cases self i H; repeat split; reflexivity. Qed.

Lemma count_cons (A : Type) (p : A -> bool) (x : A) (l : list A) :
  count p (x :: l) = (count p [x] + count p l)%nat.
Proof. exact (count_app p [x] l). Qed.

Lemma run_counts (inputs : list input) :
  forall self self' out,
    run self inputs = Some (self', out) ->
    count is_print out = count is_failure inputs
    /\ count (is_status false) out = count is_failure inputs
    /\ count is_sleep_5 out = count is_failure inputs
    /\ count (is_status true) out = count is_established inputs.
Proof.
  induction inputs as [|i rest IH]; intros self self' out Hrun.
  - inversion Hrun; repeat split; reflexivity.
  - rewrite run_cons in Hrun.
    destruct (step self i) as [[self1 out1]|] eqn:Hstep; [|discriminate].
    destruct (run self1 rest) as [[self2 out2]|] eqn:Hrest; [|discriminate].
    inversion Hrun; subst.
    destruct (step_counts _ _ Hstep) as (H1 & H2 & H3 & H4).
    destruct (IH _ _ _ Hrest) as (K1 & K2 & K3 & K4).
    rewrite !count_app, (count_cons is_failure), (count_cons is_established).
    rewrite H1, H2, H3, H4, K1, K2, K3, K4. repeat split; reflexivity.
Qed.

(** X3.  Every failure (a refused connection, a frame that is not
    JSON, an exception of [recv()] other than [ConnectionClosed]) is
    printed once, reported once by [connection_status(False)] and
    followed by one five-second sleep, and nothing else is: the three
    counts of a run equal its number of failures; and
    [connection_status(True)] is emitted once for every session that is
    established. *)
Theorem X3_every_failure_is_reported_once :
  forall (inputs : list input) (self self' : WebSocketWorker) (out : list action),
    objects_only inputs = true ->
    run self inputs = Some (self', out) ->
    count is_print out = count is_failure inputs
    /\ count (is_status false) out = count is_failure inputs
    /\ count is_sleep_5 out = count is_failure inputs
    /\ count (is_status true) out = count is_established inputs.
Proof. intros inputs self self' out _ H. exact (run_counts _ _ H). Qed.

Lemma X3_witness :
  count (is_status false)
    [Emit (connection_status true); Close; Connect uri; PrintError OSError;
     Emit (connection_status false); Sleep 5; Connect uri;
     Emit (connection_status true); Close; PrintError JSONDecodeError;
     Emit (connection_status false); Sleep 5]
  = 2%nat.
Proof.
  apply (@X3_every_failure_is_reported_once
           [Resume Connected; Resume (RecvRaised ConnectionClosed);
            Resume (ConnectRaised OSError); Resume Woken; Resume Connected;
            Resume (Received (Garbage "{"))]
           connecting sleeping); reflexivity.
Defined.




Lemma run_stops (n : nat) :
  forall self, run self (repeat Stop (S n)) = Some (stop self, []).
Proof.
  induction n as [|n IH]; intros self.
  - reflexivity.
  - change (repeat Stop (S (S n))) with (Stop :: repeat Stop (S n)).
    rewrite run_cons. unfold step at 1. cbv iota beta.
    rewrite (IH (stop self)). reflexivity.
Qed.



Lemma step_winds_down (self self' : WebSocketWorker) (i : input) (out : list action) :
  running self = false ->
  step self i = Some (self', out) ->
  running self' = false
  /\ (count is_io [i] + Nat.b2n (at_io (at_ self'))
      <= Nat.b2n (at_io (at_ self)))%nat
  /\ (count is_woken [i] + Nat.b2n (negb (has_returned (at_ self')))
      <= Nat.b2n (negb (has_returned (at_ self))))%nat
  /\ (count is_sleep_5 out <= count is_io [i])%nat.
Proof.
  intros Hr H. worker_cases self i H; try discriminate Hr;
    repeat split; simpl; try reflexivity; unfold count; simpl; lia.
Qed.

Lemma run_winds_down (inputs : list input) :
  forall self self' out,
    running self = false ->
    run self inputs = Some (self', out) ->
    running self' = false
    /\ (count is_io inputs + Nat.b2n (at_io (at_ self'))
        <= Nat.b2n (at_io (at_ self)))%nat
    /\ (count is_woken inputs + Nat.b2n (negb (has_returned (at_ self')))
        <= Nat.b2n (negb (has_returned (at_ self))))%nat
    /\ (count is_sleep_5 out <= count is_io inputs)%nat.
Proof.
  induction inputs as [|i rest IH]; intros self self' out Hr Hrun.
  - inversion Hrun; subst. repeat split; unfold count; simpl; auto; lia.
  - rewrite run_cons in Hrun.
    destruct (step self i) as [[self1 out1]|] eqn:Hstep; [|discriminate].
    destruct (run self1 rest) as [[self2 out2]|] eqn:Hrest; [|discriminate].
    inversion Hrun; subst.
    destruct (step_winds_down _ _ Hr Hstep) as (H1 & H2 & H3 & H4).
    destruct (IH _ _ _ H1 Hrest) as (K1 & K2 & K3 & K4).
    rewrite count_app, (count_cons is_io), (count_cons is_woken).
    repeat split; auto; lia.
Qed.

(** X5.  [stop()] by itself moves nothing: however often it is called,
    the coroutine stays where it is suspended and does nothing.  A
    coroutine that has been stopped takes one more result of
    [connect()] or [recv()] at most, none when it sleeps, and starts
    one more [sleep(5)] at most, after such a result; when a sleep ends
    it has returned, and once returned it accepts no completion.  The
    closing handshake of [async with] is not counted here. *)
Theorem X5_stopped_worker_winds_down :
  forall (n : nat) (inputs : list input) (self self' : WebSocketWorker)
         (out : list action) (c : completion),
    objects_only inputs = true ->
    run (stop self) inputs = Some (self', out) ->
    run self (repeat Stop (S n)) = Some (stop self, [])
    /\ (count is_io inputs <= 1)%nat
    /\ (at_ self = AwaitSleep -> count is_io inputs = 0%nat)
    /\ (count is_sleep_5 out <= count is_io inputs)%nat
    /\ (count is_woken inputs <= 1)%nat
    /\ (count is_woken inputs = 1%nat -> at_ self' = Returned)
    /\ (at_ self' = Returned -> resume self' c = None).
Proof.
  intros n inputs self self' out c _ H.
  split; [apply run_stops|].
  destruct (@run_winds_down inputs (stop self) self' out eq_refl H)
    as (_ & H2 & H3 & H4).
  change (at_ (stop self)) with (at_ self) in H2, H3.
  split; [destruct (at_io (at_ self)), (at_io (at_ self')); simpl in H2; lia|].
  split; [intros Hs; rewrite Hs in H2; simpl in H2; lia|].
  split; [exact H4|].
  split; [destruct (has_returned (at_ self)), (has_returned (at_ self'));
          simpl in H3; lia|].
  split.
  - intros H1. destruct (at_ self'); try reflexivity;
      destruct (has_returned (at_ self)); simpl in H3; lia.
  - intros Hret. unfold resume. rewrite Hret. reflexivity.
Qed.

Lemma X5_witness :
  at_ returned = Returned
  /\ (count is_sleep_5
        [Close; PrintError OSError; Emit (connection_status false); Sleep 5]
      <= count is_io [Resume (RecvRaised OSError); Stop; Resume Woken])%nat
  /\ (count is_io [Resume (RecvRaised OSError); Stop; Resume Woken] <= 1)%nat.
Proof.
  destruct (@X5_stopped_worker_winds_down
              0%nat [Resume (RecvRaised OSError); Stop; Resume Woken]
              receiving returned
              [Close; PrintError OSError; Emit (connection_status false); Sleep 5]
              Woken) as (_ & H2 & _ & H4 & _ & H6 & _).
  - reflexivity.
  - reflexivity.
  - split; [apply H6; reflexivity|]. split; [exact H4 | exact H2].
Defined.

(* ================================================================== *)
(** * Further properties of the window *)
(* ================================================================== *)

Lemma bind_ok (A B : Type) (r : result A) (k : A -> result B) (b : B) :
  bind r k = Ok b -> exists a, r = Ok a /\ k a = Ok b.
Proof. destruct r as [a|e]; simpl; intros H; [eauto | discriminate]. Qed.

Lemma radians_numeric (v : value) (theta : float) :
  radians v = Ok theta -> numeric v = true.
Proof.
  unfold radians, as_double, numeric.
  destruct (as_number v); [reflexivity | discriminate].
Qed.

Lemma coordinates_numeric (m : libm) (v a : value) (xy : float * float) :
  coordinates m v = Ok (a, xy) -> numeric a = true.
Proof.
  unfold coordinates. intros H.
  apply bind_ok in H as (a0 & _ & H).
  apply bind_ok in H as (e & _ & H).
  apply bind_ok in H as (first & _ & H).
  apply bind_ok in H as (time & _ & H).
  apply bind_ok in H as (scaled & _ & H).
  apply bind_ok in H as (halved & _ & H).
  apply bind_ok in H as (theta & Hr & H).
  apply bind_ok in H as (c & _ & H).
  apply bind_ok in H as (theta' & _ & H).
  apply bind_ok in H as (s & _ & H).
  inversion H; subst. exact (radians_numeric _ Hr).
Qed.

Lemma computed_position_numeric (m : libm) (v a : value) (xy : float * float) :
  computed_position m v = Ok (Some (a, xy)) -> numeric a = true.
Proof.
  unfold computed_position. intros H.
  apply bind_ok in H as (echoes & _ & H).
  destruct (truthy echoes); [|discriminate].
  apply bind_ok in H as (p & Hc & H).
  inversion H; subst. exact (coordinates_numeric _ _ Hc).
Qed.

Lemma QPoint_new_ok (ix iy : Z) (p : QPoint) :
  QPoint_new ix iy = Ok p ->
  p = mkQPoint ix iy /\ fits_int ix = true /\ fits_int iy = true.
Proof.
  unfold QPoint_new.
  destruct (fits_int ix), (fits_int iy); simpl; intros H;
    try discriminate; inversion H; auto.
Qed.

(** The three ways [process_message] can end. *)
Lemma process_message_cases (m : libm) (self : RadarWidget) (v : value) :
  process_message m self v = (self, [])
  \/ (exists e, process_message m self v
                = (self, [Print "Error processing message: " (Some e)]))
  \/ (exists a p,
         process_message m self v
         = ({| angle := a; dot_position := p; dot_visible := true |}, [Update])
         /\ numeric a = true
         /\ fits_int (point_x p) = true /\ fits_int (point_y p) = true).
Proof.
  unfold process_message, process_message_try.
  destruct (computed_position m v) as [[[a [x y]]|]|e] eqn:Hpos; cbn [bind].
  - destruct (int_of_float x) as [ix|e]; cbn [bind]; [|right; left; eauto].
    destruct (int_of_float y) as [iy|e]; cbn [bind]; [|right; left; eauto].
    destruct (QPoint_new ix iy) as [p|e] eqn:Hp; cbn [bind]; [|right; left; eauto].
    right. right. exists a, p.
    destruct (QPoint_new_ok _ _ Hp) as (-> & Fx & Fy).
    split; [reflexivity|]. split; [exact (computed_position_numeric _ _ Hpos)|].
    split; assumption.
  - now left.
  - right. left. eauto.
Qed.

(** X6.  [process_message] is all or nothing.  Whatever it is given, it
    either leaves the widget untouched and asks for no repaint (printing
    one line when an exception was raised, nothing when there is no
    echo), or it replaces angle and position together, shows the marker
    and asks for exactly one repaint; the angle it stores is then a
    number and the position fits a [QPoint]. *)
Theorem X6_process_message_is_all_or_nothing :
  forall (m : libm) (self : RadarWidget) (json_object : value),
    process_message m self json_object = (self, [])
    \/ (exists e, process_message m self json_object
                  = (self, [Print "Error processing message: " (Some e)]))
    \/ (exists a p,
           process_message m self json_object
           = ({| angle := a; dot_position := p; dot_visible := true |}, [Update])
           /\ numeric a = true
           /\ fits_int (point_x p) = true /\ fits_int (point_y p) = true).
Proof. intros m self json_object. apply process_message_cases. Qed.

Lemma slot_well_typed (m : libm) (self : RadarWidget) (s : signal) :
  well_typed self = true -> well_typed (fst (slot m self s)) = true.
Proof.
  intros H. destruct s as [v|status]; simpl.
  - destruct (process_message_cases m self v)
      as [E|[(e & E)|(a & p & E & Ha & Fx & Fy)]]; rewrite E; simpl; auto.
    unfold well_typed. simpl. now rewrite Ha, Fx, Fy.
  - unfold handle_connection. destruct status; exact H.
Qed.

Lemma deliver_cons (m : libm) (self : RadarWidget) (s : signal) (rest : list signal) :
  deliver m self (s :: rest)
  = (fst (deliver m (fst (slot m self s)) rest),
     snd (slot m self s) ++ snd (deliver m (fst (slot m self s)) rest)).
Proof.
  cbn [deliver]. destruct (slot m self s) as [self1 out1]. cbn [fst snd].
  destruct (deliver m self1 rest) as [self2 out2]. reflexivity.
Qed.

Lemma deliver_app (m : libm) (a b : list signal) :
  forall self,
    deliver m self (a ++ b)
    = (fst (deliver m (fst (deliver m self a)) b),
       snd (deliver m self a) ++ snd (deliver m (fst (deliver m self a)) b)).
Proof.
  induction a as [|s a IH]; intros self.
  - simpl. now destruct (deliver m self b).
  - rewrite <- app_comm_cons, !deliver_cons, IH. simpl. now rewrite app_assoc.
Qed.

Lemma deliver_well_typed (m : libm) (signals : list signal) :
  forall self, well_typed self = true -> well_typed (fst (deliver m self signals)) = true.
Proof.
  induction signals as [|s rest IH]; intros self H; [exact H|].
  rewrite deliver_cons. simpl. apply IH. now apply slot_well_typed.
Qed.

Lemma fits_int_near (n : Z) : fits_int n = true -> near_int (n - 3) = true.
Proof.
  unfold fits_int, near_int. intros H.
  apply andb_prop in H as [H1 H2].
  apply Z.leb_le in H1. apply Z.leb_le in H2.
  apply andb_true_intro. split; apply Z.leb_le; lia.
Qed.

(** X7.  Whatever signals the window has handled since it was built,
    the angle the widget holds is a number, so [painter.rotate] is
    given one, and the position it holds is a [QPoint] whose
    coordinates are C [int]s; a message with a [scanAngle] that is no
    number never reaches the widget.  Of the ellipses [paintEvent]
    draws this bounds the sizes by a C [int] and the left and top,
    [x - 3] and [y - 3] for the marker, by 3 below one: no more, the
    marker's ellipse can start below the range of a C [int]. *)
Theorem X7_widget_holds_a_number_and_a_qpoint :
  forall (m : libm) (signals : list signal),
    let self := fst (deliver m RadarWidget_init signals) in
    numeric (angle self) = true
    /\ fits_int (point_x (dot_position self)) = true
    /\ fits_int (point_y (dot_position self)) = true
    /\ In (rotate (angle self)) (snd (paintEvent self))
    /\ forallb ellipse_near_int (snd (paintEvent self)) = true.
Proof.
  intros m signals self.
  assert (H : well_typed self = true)
    by (apply deliver_well_typed; reflexivity).
  unfold well_typed in H. apply andb_prop in H as [H Fy]. apply andb_prop in H as [Ha Fx].
  repeat (split; [assumption|]).
  cbn [paintEvent snd]. unfold draw_radar. split.
  - unfold draw_beam. rewrite !in_app_iff. right. right. left.
    simpl. auto.
  - rewrite !forallb_app.
    apply andb_true_intro. split; [reflexivity|].
    apply andb_true_intro. split; [reflexivity|].
    apply andb_true_intro. split; [reflexivity|].
    unfold draw_dot. destruct (dot_visible self); [|reflexivity].
    cbn [forallb ellipse_near_int].
    rewrite (fits_int_near _ Fx), (fits_int_near _ Fy). reflexivity.
Qed.

(** X17.  The marker's ellipse can start below the range of a C [int].
    With a libm that has [cos(pi) = -1], as glibc has, the echo of
    19088.744875 seconds at [scanAngle] 180 has [x = -2147483648.4375]:
    [int(x)] is the least C [int], [QPoint] accepts it, the widget
    shows the marker, and [paintEvent] calls [drawEllipse] with
    [x - 3 = -2147483651]. *)
Theorem X17_marker_can_start_below_the_int_range :
  forall (m : libm) (self : RadarWidget),
    cos m pi = (-1)%float ->
    sin m pi = 0x1.1a62633145c07p-53%float ->
    computed_position m (scan_report 180 10 [echo_response edge_time 0.5])
    = Ok (Some (PyInt 180, (-0x1.00000000ep+31, 0x1.2c000008d3132p+7)%float))
    /\ process_message m self (scan_report 180 10 [echo_response edge_time 0.5])
       = ({| angle := PyInt 180; dot_position := mkQPoint (-2147483648) 150;
             dot_visible := true |}, [Update])
    /\ In (drawEllipse (-2147483651) 147 6 6)
          (snd (paintEvent
                  (fst (process_message m self
                          (scan_report 180 10 [echo_response edge_time 0.5])))))
    /\ fits_int (-2147483651) = false.
Proof.
  intros m self Hcos Hsin.
  assert (Hrad : radians (PyInt 180) = Ok pi) by (vm_compute; reflexivity).
  assert (Hc : is_finite (cos m pi) = true) by (rewrite Hcos; reflexivity).
  assert (Hs : is_finite (sin m pi) = true) by (rewrite Hsin; reflexivity).
  assert (Hpos : computed_position m (scan_report 180 10 [echo_response edge_time 0.5])
                 = Ok (Some (PyInt 180, (-0x1.00000000ep+31, 0x1.2c000008d3132p+7)%float))).
  { unfold scan_report.
    rewrite (@computed_position_of_report m
               [("scanAngle"%string, PyInt 180); ("pulseDuration"%string, PyInt 10);
                ("echoResponses"%string, PyList [echo_response edge_time 0.5])]
               [("time"%string, PyFloat edge_time); ("power"%string, PyFloat 0.5)]
               [] (PyInt 180) edge_time pi eq_refl eq_refl eq_refl Hrad Hc Hs).
    unfold surface_x, surface_y. rewrite Hcos, Hsin.
    vm_compute. reflexivity. }
  assert (Hmsg : process_message m self (scan_report 180 10 [echo_response edge_time 0.5])
                 = ({| angle := PyInt 180; dot_position := mkQPoint (-2147483648) 150;
                       dot_visible := true |}, [Update])).
  { unfold process_message, process_message_try. rewrite Hpos. reflexivity. }
  split; [exact Hpos|]. split; [exact Hmsg|]. split; [|reflexivity].
  rewrite Hmsg. cbn [fst paintEvent snd].
  apply (dot_is_drawn {| angle := PyInt 180; dot_position := mkQPoint (-2147483648) 150;
                         dot_visible := true |}).
  reflexivity.
Qed.

Lemma X17_witness :
  process_message libm_half_turn RadarWidget_init
    (scan_report 180 10 [echo_response edge_time 0.5])
  = ({| angle := PyInt 180; dot_position := mkQPoint (-2147483648) 150;
        dot_visible := true |}, [Update])
  /\ In (drawEllipse (-2147483651) 147 6 6)
        (snd (paintEvent
                (fst (process_message libm_half_turn RadarWidget_init
                        (scan_report 180 10 [echo_response edge_time 0.5]))))).
Proof.
  destruct (@X17_marker_can_start_below_the_int_range libm_half_turn RadarWidget_init)
    as (_ & H2 & H3 & _).
  - vm_compute. reflexivity.
  - vm_compute. reflexivity.
  - split; [exact H2 | exact H3].
Defined.

Lemma slot_lines (m : libm) (self : RadarWidget) (s : signal) (status : bool) :
  count (is_connection_line status) (snd (slot m self s))
  = count (is_status_signal status) [s].
Proof.
  destruct s as [v|b]; simpl.
  - destruct (process_message_cases m self v)
      as [E|[(e & E)|(a & p & E & _)]]; rewrite E; reflexivity.
  - destruct b, status; reflexivity.
Qed.

Lemma slot_connection_status (m : libm) (self : RadarWidget) (status : bool) :
  fst (slot m self (connection_status status)) = self.
Proof. simpl. unfold handle_connection. now destruct status. Qed.

Lemma deliver_lines (m : libm) (signals : list signal) (status : bool) :
  forall self,
    count (is_connection_line status) (snd (deliver m self signals))
    = count (is_status_signal status) signals.
Proof.
  induction signals as [|s rest IH]; intros self; [reflexivity|].
  rewrite deliver_cons. cbn [snd].
  rewrite count_app, slot_lines, IH.
  symmetry. apply (count_cons (is_status_signal status)).
Qed.

Lemma deliver_messages_only (m : libm) (signals : list signal) :
  forall self,
    fst (deliver m self signals) = fst (deliver m self (filter is_message signals)).
Proof.
  induction signals as [|s rest IH]; intros self; [reflexivity|].
  destruct s as [v|status].
  - cbn [filter is_message]. rewrite !deliver_cons. cbn [fst]. apply IH.
  - cbn [filter is_message]. rewrite deliver_cons. cbn [fst].
    rewrite slot_connection_status. apply IH.
Qed.

(** X8.  Changes of the connection never reach the radar: after any
    signals the widget is what the [message_received] signals alone
    would have made it, and [handle_connection] does nothing but print,
    one "WebSocket Connected" for every [connection_status(True)] and
    one "WebSocket Disconnected" for every [connection_status(False)]. *)
Theorem X8_connection_changes_only_print :
  forall (m : libm) (self : RadarWidget) (signals : list signal),
    fst (deliver m self signals) = fst (deliver m self (filter is_message signals))
    /\ count (is_connection_line true) (snd (deliver m self signals))
       = count (is_status_signal true) signals
    /\ count (is_connection_line false) (snd (deliver m self signals))
       = count (is_status_signal false) signals.
Proof.
  intros m self signals.
  split; [apply deliver_messages_only|].
  split; apply deliver_lines.
Qed.

Lemma process_message_history_free (m : libm) (self1 self2 : RadarWidget) (v : value) :
  snd (process_message m self1 v) = snd (process_message m self2 v)
  /\ (snd (process_message m self1 v) = [Update] ->
      fst (process_message m self1 v) = fst (process_message m self2 v)).
Proof.
  unfold process_message, process_message_try.
  destruct (computed_position m v) as [[[a [x y]]|]|e]; cbn [bind].
  - destruct (int_of_float x) as [ix|e]; cbn [bind fst snd];
      [|split; [reflexivity | discriminate]].
    destruct (int_of_float y) as [iy|e]; cbn [bind fst snd];
      [|split; [reflexivity | discriminate]].
    destruct (QPoint_new ix iy) as [p|e]; cbn [bind fst snd];
      [|split; [reflexivity | discriminate]].
    split; reflexivity.
  - split; [reflexivity | discriminate].
  - split; [reflexivity | discriminate].
Qed.

(** X9.  Only the latest position is kept.  What a message prints or
    requests does not depend on the state of the widget, and a message
    that is plotted overwrites the widget wholesale: after any history
    of signals the widget is what the same message would make of a
    fresh one. *)
Theorem X9_latest_position_wins :
  forall (m : libm) (self : RadarWidget) (signals : list signal) (json_object : value),
    snd (process_message m RadarWidget_init json_object) = [Update] ->
    snd (process_message m self json_object) = [Update]
    /\ fst (deliver m self (signals ++ [message_received json_object]))
       = fst (process_message m RadarWidget_init json_object).
Proof.
  intros m self signals v H.
  destruct (process_message_history_free m RadarWidget_init self v) as [Hs _].
  split; [now rewrite <- Hs|].
  rewrite deliver_app. cbn [fst]. rewrite deliver_cons. cbn [fst deliver slot].
  destruct (process_message_history_free
              m RadarWidget_init (fst (deliver m self signals)) v) as [_ Hf].
  symmetry. exact (Hf H).
Qed.

Lemma X9_witness :
  fst (deliver libm_sample RadarWidget_init
         ([message_received (scan_report 360 10 [echo_response ms2 0.5]);
           connection_status false; message_received scenario_B]
          ++ [message_received scenario_A]))
  = {| angle := PyInt 0; dot_position := mkQPoint 262 150; dot_visible := true |}.
Proof.
  apply (@X9_latest_position_wins libm_sample RadarWidget_init
           [message_received (scan_report 360 10 [echo_response ms2 0.5]);
            connection_status false; message_received scenario_B]
           scenario_A).
  vm_compute. reflexivity.
Defined.

(** X10.  Of a message, [process_message] reads the scan angle and the
    time of the first echo and nothing else: two JSON objects that
    agree on these two are handled alike, whatever their pulse
    duration, the power of their echoes, their further echoes and
    their other keys. *)
Theorem X10_only_angle_and_first_time_are_read :
  forall (m : libm) (self : RadarWidget) (kv1 kv2 ekv1 ekv2 : list (string * value))
         (rest1 rest2 : list value),
    assoc "scanAngle" kv1 = assoc "scanAngle" kv2 ->
    assoc "echoResponses" kv1 = Some (PyList (PyDict ekv1 :: rest1)) ->
    assoc "echoResponses" kv2 = Some (PyList (PyDict ekv2 :: rest2)) ->
    assoc "time" ekv1 = assoc "time" ekv2 ->
    process_message m self (PyDict kv1) = process_message m self (PyDict kv2).
Proof.
  intros m self kv1 kv2 ekv1 ekv2 rest1 rest2 Ha H1 H2 Ht.
  assert (Heq : computed_position m (PyDict kv1) = computed_position m (PyDict kv2)).
  { unfold computed_position, coordinates, dict_get, getitem.
    rewrite Ha, H1, H2. cbn [bind truthy getitem_0]. rewrite Ht. reflexivity. }
  unfold process_message, process_message_try. now rewrite Heq.
Qed.

Lemma X10_witness :
  process_message libm_sample RadarWidget_init
    (PyDict [("echoResponses"%string,
              PyList [PyDict [("power"%string, PyStr "strong");
                              ("time"%string, PyFloat ms1)];
                      PyNone]);
             ("scanAngle"%string, PyInt 0);
             ("note"%string, PyStr "no pulse duration")])
  = process_message libm_sample RadarWidget_init scenario_A.
Proof.
  apply (@X10_only_angle_and_first_time_are_read libm_sample RadarWidget_init
           [("echoResponses"%string,
             PyList [PyDict [("power"%string, PyStr "strong");
                             ("time"%string, PyFloat ms1)];
                     PyNone]);
            ("scanAngle"%string, PyInt 0);
            ("note"%string, PyStr "no pulse duration")]
           [("scanAngle"%string, PyInt 0); ("pulseDuration"%string, PyInt 10);
            ("echoResponses"%string, PyList [echo_response ms1 0.5])]
           [("power"%string, PyStr "strong"); ("time"%string, PyFloat ms1)]
           [("time"%string, PyFloat ms1); ("power"%string, PyFloat 0.5)]
           [PyNone] []);
    reflexivity.
Defined.

Lemma process_message_raises (m : libm) (self : RadarWidget) (v : value) (e : exn) :
  computed_position m v = Raise e ->
  process_message m self v = (self, [Print "Error processing message: " (Some e)]).
Proof.
  intros H. unfold process_message, process_message_try. now rewrite H.
Qed.

Lemma truediv_2_not_numeric (v : value) :
  as_number v = None -> truediv_2 v = Raise TypeError.
Proof. unfold truediv_2. now intros ->. Qed.

Lemma halved_time_not_numeric (time : value) :
  as_number time = None -> halved_time time = Raise TypeError.
Proof.
  intros H. unfold halved_time, mul. rewrite H. cbn [as_number].
  destruct time; try discriminate H; cbn [bind]; try reflexivity;
    now apply truediv_2_not_numeric.
Qed.

(** X12.  A message whose echoes cannot be read is printed and
    skipped, and the widget is left as it was: a first echo without
    [time] raises [KeyError], a [time] that is no number (a string,
    [null], a list, an object) and a first echo that is no object raise
    [TypeError], and an [echoResponses] that is truthy but no list
    raises [TypeError] or, for an object, [KeyError]. *)
Theorem X12_unreadable_echo_is_reported :
  forall (m : libm) (self : RadarWidget) (kv : list (string * value))
         (scanAngle : value),
    assoc "scanAngle" kv = Some scanAngle ->
    (forall ekv rest,
        assoc "echoResponses" kv = Some (PyList (PyDict ekv :: rest)) ->
        assoc "time" ekv = None ->
        process_message m self (PyDict kv)
        = (self, [Print "Error processing message: " (Some (KeyError (PyStr "time")))]))
    /\ (forall ekv rest time,
           assoc "echoResponses" kv = Some (PyList (PyDict ekv :: rest)) ->
           assoc "time" ekv = Some time ->
           as_number time = None ->
           process_message m self (PyDict kv)
           = (self, [Print "Error processing message: " (Some TypeError)]))
    /\ (forall first rest,
           assoc "echoResponses" kv = Some (PyList (first :: rest)) ->
           (forall ekv, first <> PyDict ekv) ->
           process_message m self (PyDict kv)
           = (self, [Print "Error processing message: " (Some TypeError)]))
    /\ (forall echoes,
           assoc "echoResponses" kv = Some echoes ->
           truthy echoes = true ->
           (forall items, echoes <> PyList items) ->
           process_message m self (PyDict kv)
           = (self, [Print "Error processing message: " (Some TypeError)])
           \/ process_message m self (PyDict kv)
              = (self, [Print "Error processing message: "
                              (Some (KeyError (PyInt 0)))])).
Proof.
  intros m self kv scanAngle Ha.
  split; [|split; [|split]].
  - intros ekv rest He Ht. apply process_message_raises.
    unfold computed_position, dict_get, coordinates, getitem.
    rewrite He, Ha. cbn [bind truthy getitem_0]. now rewrite Ht.
  - intros ekv rest time He Ht Hn. apply process_message_raises.
    unfold computed_position, dict_get, coordinates, getitem.
    rewrite He, Ha. cbn [bind truthy getitem_0]. rewrite Ht. cbn [bind].
    pose proof (halved_time_not_numeric time Hn) as Hh.
    unfold halved_time in Hh.
    destruct (mul time (PyInt 300000)) as [scaled|e]; cbn [bind] in Hh |- *.
    + now rewrite Hh.
    + inversion Hh. reflexivity.
  - intros first rest He Hfirst. apply process_message_raises.
    unfold computed_position, dict_get, coordinates, getitem.
    rewrite He, Ha. cbn [bind truthy getitem_0].
    destruct first; try reflexivity. now elim (Hfirst items).
  - intros echoes He Ht Hlist.
    destruct echoes as [ |b|n|f|s|items|items]; try discriminate Ht.
    + left. apply process_message_raises.
      unfold computed_position, dict_get, coordinates, getitem.
      rewrite He, Ha. cbn [bind]. rewrite Ht. reflexivity.
    + left. apply process_message_raises.
      unfold computed_position, dict_get, coordinates, getitem.
      rewrite He, Ha. cbn [bind]. rewrite Ht. reflexivity.
    + left. apply process_message_raises.
      unfold computed_position, dict_get, coordinates, getitem.
      rewrite He, Ha. cbn [bind]. rewrite Ht. reflexivity.
    + left. apply process_message_raises.
      unfold computed_position, dict_get, coordinates, getitem.
      rewrite He, Ha. cbn [bind]. rewrite Ht.
      destruct s; [discriminate Ht | reflexivity].
    + now elim (Hlist items).
    + right. apply process_message_raises.
      unfold computed_position, dict_get, coordinates, getitem.
      rewrite He, Ha. cbn [bind]. rewrite Ht. reflexivity.
Qed.

Lemma X12_witness :
  process_message libm_sample RadarWidget_init
    (PyDict [("scanAngle"%string, PyInt 0);
             ("echoResponses"%string, PyList [PyDict [("power"%string, PyFloat 0.5)]])])
  = (RadarWidget_init,
     [Print "Error processing message: " (Some (KeyError (PyStr "time")))]).
Proof.
  destruct (@X12_unreadable_echo_is_reported libm_sample RadarWidget_init
              [("scanAngle"%string, PyInt 0);
               ("echoResponses"%string, PyList [PyDict [("power"%string, PyFloat 0.5)]])]
              (PyInt 0) eq_refl) as (H & _).
  apply (H [("power"%string, PyFloat 0.5)] []); reflexivity.
Defined.

Lemma marker_iff_visible (self : RadarWidget) :
  existsb is_marker (draw_radar self) = dot_visible self.
Proof. destruct self as [a [x y] v]; destruct v; reflexivity. Qed.

Lemma slot_visible (m : libm) (self : RadarWidget) (s : signal) :
  dot_visible (fst (slot m self s))
  = dot_visible self || existsb is_update (snd (slot m self s))
  /\ (count is_update (snd (slot m self s)) <= count is_message [s])%nat.
Proof.
  destruct s as [v|status]; simpl.
  - destruct (process_message_cases m self v)
      as [E|[(e & E)|(a & p & E & _)]]; rewrite E; simpl;
      rewrite ?orb_false_r, ?orb_true_r; split; auto; unfold count; simpl; lia.
  - unfold handle_connection. destruct status; simpl;
      rewrite orb_false_r; split; auto; unfold count; simpl; lia.
Qed.

Lemma deliver_visible (m : libm) (signals : list signal) :
  forall self,
    dot_visible (fst (deliver m self signals))
    = dot_visible self || existsb is_update (snd (deliver m self signals))
    /\ (count is_update (snd (deliver m self signals)) <= count is_message signals)%nat.
Proof.
  induction signals as [|s rest IH]; intros self.
  - simpl. rewrite orb_false_r. split; auto.
  - rewrite deliver_cons. cbn [fst snd].
    destruct (slot_visible m self s) as [H1 H2].
    destruct (IH (fst (slot m self s))) as [K1 K2].
    rewrite K1, H1, existsb_app, orb_assoc. split; [reflexivity|].
    rewrite count_app, (count_cons is_message). lia.
Qed.

(** X13.  The marker is on the screen exactly when a repaint has ever
    been requested: from a fresh widget, [draw_radar] draws the 6 by 6
    ellipse if and only if some message handled so far has been
    plotted; each message requests at most one repaint and a change of
    the connection none. *)
Theorem X13_marker_is_drawn_iff_a_message_was_plotted :
  forall (m : libm) (signals : list signal),
    existsb is_marker (draw_radar (fst (deliver m RadarWidget_init signals)))
    = existsb is_update (snd (deliver m RadarWidget_init signals))
    /\ (count is_update (snd (deliver m RadarWidget_init signals))
        <= count is_message signals)%nat.
Proof.
  intros m signals. rewrite marker_iff_visible.
  destruct (deliver_visible m signals RadarWidget_init) as [H1 H2].
  split; [exact H1 | exact H2].
Qed.

Lemma emitted_messages (out : list action) :
  filter is_message (emitted out) = map message_received (messages out).
Proof.
  induction out as [|x out IH]; [reflexivity|].
  destruct x as [u| |[v|status]|e|seconds]; simpl; now rewrite ?IH.
Qed.

Lemma emitted_status (out : list action) (status : bool) :
  count (is_status_signal status) (emitted out) = count (is_status status) out.
Proof.
  unfold count. induction out as [|x out IH]; [reflexivity|].
  destruct x as [u| |[v|b]|e|seconds]; simpl; auto.
  destruct (Bool.eqb b status); simpl; now rewrite IH.
Qed.

Lemma filter_messages_map (l : list value) :
  filter is_message (map message_received l) = map message_received l.
Proof. induction l as [|v l IH]; simpl; now rewrite ?IH. Qed.

(** X14.  From the socket to the screen: after a run of the worker,
    when the window has handled every signal the run emitted, the
    widget is what the received JSON documents, in their order, make of
    it; frames that are not JSON, failures, reconnections and calls of
    [stop] leave no trace on the radar. *)
Theorem X14_display_follows_the_documents :
  forall (m : libm) (inputs : list input) (worker worker' : WebSocketWorker)
         (out : list action) (self : RadarWidget),
    objects_only inputs = true ->
    run worker inputs = Some (worker', out) ->
    fst (deliver m self (emitted out))
    = fst (deliver m self (map message_received (documents inputs))).
Proof.
  intros m inputs worker worker' out self _ H.
  rewrite deliver_messages_only, emitted_messages, (run_messages _ _ H).
  reflexivity.
Qed.

Lemma X14_witness :
  fst (deliver libm_sample RadarWidget_init
         (emitted [Emit (connection_status true); Emit (message_received scenario_A);
                   Close; PrintError JSONDecodeError; Emit (connection_status false);
                   Sleep 5; Connect uri; Emit (connection_status true);
                   Emit (message_received scenario_B)]))
  = fst (deliver libm_sample RadarWidget_init
           (map message_received [scenario_A; scenario_B])).
Proof.
  apply (@X14_display_follows_the_documents libm_sample
           [Resume Connected; Resume (Received (Document scenario_A));
            Resume (Received (Garbage "{")); Resume Woken; Resume Connected;
            Resume (Received (Document scenario_B))]
           connecting receiving); reflexivity.
Defined.

(** X15.  From the socket to the console: when the window has handled
    the signals of a run, it has printed "WebSocket Disconnected" once
    for every failure of the run and "WebSocket Connected" once for
    every session that was established; a session that the peer closes
    prints nothing. *)
Theorem X15_console_follows_the_connection :
  forall (m : libm) (inputs : list input) (worker worker' : WebSocketWorker)
         (out : list action) (self : RadarWidget),
    objects_only inputs = true ->
    run worker inputs = Some (worker', out) ->
    count (is_connection_line false) (snd (deliver m self (emitted out)))
    = count is_failure inputs
    /\ count (is_connection_line true) (snd (deliver m self (emitted out)))
       = count is_established inputs.
Proof.
  intros m inputs worker worker' out self _ H.
  destruct (run_counts _ _ H) as (_ & H2 & _ & H4).
  rewrite !deliver_lines, !emitted_status. split; assumption.
Qed.

Lemma X15_witness :
  count (is_connection_line false)
    (snd (deliver libm_sample RadarWidget_init
            (emitted [Emit (connection_status true); Close; Connect uri;
                      PrintError OSError; Emit (connection_status false); Sleep 5])))
  = 1%nat.
Proof.
  apply (@X15_console_follows_the_connection libm_sample
           [Resume Connected; Resume (RecvRaised ConnectionClosed);
            Resume (ConnectRaised OSError)]
           connecting sleeping); reflexivity.
Defined.

(* ================================================================== *)
(** * Further properties of the transform *)
(* ================================================================== *)

Lemma halved_bind (B : Type) (time : value) (k : float -> result B) :
  bind (mul time (PyInt 300000)) (fun scaled => bind (truediv_2 scaled) k)
  = bind (halved_time time) k.
Proof. unfold halved_time. now destruct (mul time (PyInt 300000)). Qed.

Lemma computed_position_of_halved (m : libm) (kv ekv : list (string * value))
      (rest : list value) (scanAngle time : value) (h theta : float) :
  assoc "scanAngle" kv = Some scanAngle ->
  assoc "echoResponses" kv = Some (PyList (PyDict ekv :: rest)) ->
  assoc "time" ekv = Some time ->
  halved_time time = Ok h ->
  radians scanAngle = Ok theta ->
  is_finite (cos m theta) = true ->
  is_finite (sin m theta) = true ->
  computed_position m (PyDict kv)
  = Ok (Some (scanAngle, (surface_x m (h / 200) theta, surface_y m (h / 200) theta))).
Proof.
  intros Ha He Ht Hh Hr Hc Hs.
  unfold computed_position, dict_get, coordinates, getitem.
  rewrite He, Ha. cbn [bind truthy getitem_0]. rewrite Ht. cbn [bind].
  rewrite halved_bind, Hh. cbn [bind]. rewrite Hr. cbn [bind].
  unfold math_cos, math_sin.
  rewrite (math_1_finite (cos m) theta Hc), (math_1_finite (sin m) theta Hs).
  reflexivity.
Qed.

Lemma finite_cases (c : float) :
  is_finite c = true ->
  match Prim2SF c with
  | S754_zero _ | S754_finite _ _ _ => True
  | _ => False
  end.
Proof.
  unfold is_finite, is_nan, is_infinity.
  rewrite !eqb_spec, abs_spec.
  change (Prim2SF infinity) with (S754_infinity false).
  destruct (Prim2SF c) as [s|[|]| |s mc ec];
    try exact (fun _ => I); vm_compute; discriminate.
Qed.

(** Nothing times a finite number, plus 150, is 150. *)
Lemma zero_mul_add_150 (c : float) :
  is_finite c = true -> (0 * c + 150)%float = 150%float.
Proof.
  intros H. apply finite_cases in H.
  apply Prim2SF_inj. rewrite add_spec, mul_spec.
  change (Prim2SF 0) with (S754_zero false).
  destruct (Prim2SF c) as [s|s| |s mc ec]; try contradiction; reflexivity.
Qed.

(** X11.  An echo with no delay is plotted at the centre of the radar,
    (150, 150), whatever the bearing: for every scan angle from 0 to
    359 and every libm that is finite there, whether the time is the
    float 0.0 or the integer 0 that [json.loads] makes of [0]. *)
Theorem X11_no_delay_is_the_centre :
  forall (m : libm) (self : RadarWidget) (kv ekv : list (string * value))
         (rest : list value) (a : Z) (time : value),
    0 <= a < 360 ->
    assoc "scanAngle" kv = Some (PyInt a) ->
    assoc "echoResponses" kv = Some (PyList (PyDict ekv :: rest)) ->
    assoc "time" ekv = Some time ->
    time = PyFloat 0 \/ time = PyInt 0 ->
    is_finite (cos m (bearing a)) = true ->
    is_finite (sin m (bearing a)) = true ->
    process_message m self (PyDict kv)
    = ({| angle := PyInt a; dot_position := mkQPoint 150 150; dot_visible := true |},
       [Update]).
Proof.
  intros m self kv ekv rest a time Hrange Ha He Ht Hzero Hc Hs.
  assert (Hh : halved_time time = Ok 0%float)
    by (destruct Hzero as [-> | ->]; vm_compute; reflexivity).
  pose proof (@computed_position_of_halved m kv ekv rest (PyInt a) time 0%float
                (bearing a) Ha He Ht Hh (radians_in_range Hrange) Hc Hs) as Hpos.
  unfold surface_x, surface_y in Hpos.
  change (0 / 200 * 150)%float with 0%float in Hpos.
  rewrite (zero_mul_add_150 _ Hc), (zero_mul_add_150 _ Hs) in Hpos.
  unfold process_message, process_message_try. rewrite Hpos. reflexivity.
Qed.

Lemma X11_witness :
  process_message libm_sample RadarWidget_init
    (PyDict [("scanAngle"%string, PyInt 359);
             ("echoResponses"%string, PyList [PyDict [("time"%string, PyInt 0)]])])
  = ({| angle := PyInt 359; dot_position := mkQPoint 150 150; dot_visible := true |},
     [Update]).
Proof.
  apply (@X11_no_delay_is_the_centre libm_sample RadarWidget_init
           [("scanAngle"%string, PyInt 359);
            ("echoResponses"%string, PyList [PyDict [("time"%string, PyInt 0)]])]
           [("time"%string, PyInt 0)] [] 359 (PyInt 0));
    try lia; try reflexivity.
  right. reflexivity.
Defined.

Lemma halved_int_is_float (n : Z) :
  0 <= n < 1000 ->
  halved_time (PyInt n) = halved_time (PyFloat (float_of n)).
Proof.
  intros Hn.
  assert (Hall : forallb
                   (fun k =>
                      match round_scaled (Z.of_nat k * 300000) (-1) with
                      | Ok h => Leibniz.eqb h (float_of (Z.of_nat k) * 300000 / 2)
                      | Raise _ => false
                      end)
                   (seq 0 1000) = true) by (vm_compute; reflexivity).
  rewrite forallb_forall in Hall.
  specialize (Hall (Z.to_nat n)).
  rewrite Z2Nat.id in Hall by lia.
  assert (Hin : In (Z.to_nat n) (seq 0 1000)) by (apply in_seq; lia).
  apply Hall in Hin.
  unfold halved_time. rewrite mul_float_300000.
  cbn [mul as_number bind truediv_2].
  destruct (round_scaled (n * 300000) (-1)) as [h|e]; [|discriminate].
  apply Leibniz.eqb_spec in Hin. now subst h.
Qed.

(** X16.  The type a time comes in does not matter when its value does
    not: an integer time from 0 to 999, as [json.loads] returns for a
    number written without fraction, is handled exactly like the float
    of the same value, and [true] and [false] like 1 and 0. *)
Theorem X16_integer_time_is_the_float_time :
  forall (m : libm) (self : RadarWidget) (kv1 kv2 ekv1 ekv2 : list (string * value))
         (rest1 rest2 : list value) (n : Z) (b : bool),
    assoc "scanAngle" kv1 = assoc "scanAngle" kv2 ->
    assoc "echoResponses" kv1 = Some (PyList (PyDict ekv1 :: rest1)) ->
    assoc "echoResponses" kv2 = Some (PyList (PyDict ekv2 :: rest2)) ->
    (0 <= n < 1000 ->
     assoc "time" ekv1 = Some (PyInt n) ->
     assoc "time" ekv2 = Some (PyFloat (float_of n)) ->
     process_message m self (PyDict kv1) = process_message m self (PyDict kv2))
    /\ (assoc "time" ekv1 = Some (PyBool b) ->
        assoc "time" ekv2 = Some (PyInt (Z.b2z b)) ->
        process_message m self (PyDict kv1) = process_message m self (PyDict kv2)).
Proof.
  intros m self kv1 kv2 ekv1 ekv2 rest1 rest2 n b Ha H1 H2.
  assert (Hgen : forall t1 t2,
             halved_time t1 = halved_time t2 ->
             assoc "time" ekv1 = Some t1 -> assoc "time" ekv2 = Some t2 ->
             process_message m self (PyDict kv1) = process_message m self (PyDict kv2)).
  { intros t1 t2 Hh Ht1 Ht2.
    assert (Heq : computed_position m (PyDict kv1) = computed_position m (PyDict kv2)).
    { unfold computed_position, dict_get, coordinates, getitem.
      rewrite Ha, H1, H2. cbn [bind truthy getitem_0].
      destruct (assoc "scanAngle" kv2) as [scanAngle|]; [|reflexivity].
      cbn [bind]. rewrite Ht1, Ht2. cbn [bind].
      rewrite !halved_bind, Hh. reflexivity. }
    unfold process_message, process_message_try. now rewrite Heq. }
  split.
  - intros Hn Ht1 Ht2. apply (Hgen _ _ (halved_int_is_float Hn) Ht1 Ht2).
  - intros Ht1 Ht2. apply (Hgen (PyBool b) (PyInt (Z.b2z b))); auto.
Qed.

Lemma X16_witness :
  process_message libm_sample RadarWidget_init
    (scan_report 0 10 [PyDict [("time"%string, PyInt 1)]])
  = process_message libm_sample RadarWidget_init
      (scan_report 0 10 [PyDict [("time"%string, PyFloat 1)]]).
Proof.
  destruct (@X16_integer_time_is_the_float_time libm_sample RadarWidget_init
              [("scanAngle"%string, PyInt 0); ("pulseDuration"%string, PyInt 10);
               ("echoResponses"%string, PyList [PyDict [("time"%string, PyInt 1)]])]
              [("scanAngle"%string, PyInt 0); ("pulseDuration"%string, PyInt 10);
               ("echoResponses"%string, PyList [PyDict [("time"%string, PyFloat 1)]])]
              [("time"%string, PyInt 1)] [("time"%string, PyFloat 1)] [] [] 1 true
              eq_refl eq_refl eq_refl) as [H _].
  apply H; [lia | reflexivity | reflexivity].
Defined.
